(** * UFPS: frame-rate options, media probe and the processing pipeline

    A shallow embedding of [ufps/utils.py] ([get_fps_options], the frame-rate
    part of [get_video_info]) and of [ufps/core.py] ([VideoProcessor],
    [RIFEInterpolator], [process_video]).

    Python floats are IEEE 754 binary64 values: they are modelled by Rocq's
    primitive floats, whose operations are specified by [SpecFloat] through
    the library's [FloatAxioms].  Python exceptions are values of [exn];
    a call either returns ([Ok]) or raises ([Raise]). *)

From Stdlib Require Import ZArith List String Ascii Floats Lia Bool Sorted.
From stdpp Require Import base gmap sets list strings.
Import ListNotations.
Open Scope Z_scope.

(** ** Exceptions and results *)

(** The messages of the [RuntimeError]s raised in [core.py] and in
    [get_video_info], with the text they interpolate. *)
Inductive runtime_msg : Type :=
  | FFmpegNotFound
  | ExtractFailed (stderr : string)
  | EncodeFailed (stderr : string)
  | RifeNotFound (dir : list string)
  | ModelsNotFound (dir : list string)
  | NoCompatibleScript
  | NoVideoStream.

Inductive exn : Type :=
  | ZeroDivisionError
  | RuntimeError (msg : runtime_msg)
  | NameError (name : string)
  | ValueError
  | TypeError
  | KeyError (key : string)
  | OtherError (tag : string).  (** any other exception, e.g. of a callback *)

Inductive result (A : Type) : Type :=
  | Ok (a : A)
  | Raise (e : exn).
Arguments Ok {A} a.
Arguments Raise {A} e.

(** ** Python numbers *)

(** The ['target'] field of an option holds the int taken from the standard
    list (exact options) or the float [actual_fps] (the others). *)
Inductive pynum : Type :=
  | PyInt (n : Z)
  | PyFloat (x : float).

(** [float(n)] for a Python int [n] with [0 <= n < 2^53] (exact). *)
Definition of_int (n : Z) : float := PrimFloat.of_uint63 (Uint63.of_Z n).

(** Python's [a / b] on floats: [float_div] raises when [b == 0.0]
    (which holds for both zeros) and otherwise is the IEEE quotient. *)
Definition py_div (a b : float) : result float :=
  if (b =? 0)%float then Raise ZeroDivisionError else Ok (a / b)%float.

(** ** utils.get_fps_options *)

Module Utils.

Record FpsOption : Type := mkOption {
  target : pynum;
  actual : float;
  scale : Z;
  exact : bool
}.

Definition standard_fps : list Z :=
  [24; 25; 30; 48; 50; 60; 90; 96; 100; 120; 144; 180; 240].

(** The [if / elif / elif / else: continue] cascade on [scale_needed];
    [None] is the [continue]. *)
Definition choose_scale (scale_needed : float) : option Z :=
  if (scale_needed <=? 2)%float then Some 2
  else if (scale_needed <=? 4)%float then Some 4
  else if (scale_needed <=? 8)%float then Some 8
  else None.

(** The "Add option" part of the loop body: what is appended, if anything. *)
Definition make_option (current_fps : float) (t : Z) (s : Z) : option FpsOption :=
  let actual_fps := (current_fps * of_int s)%float in
  if (PrimFloat.abs (actual_fps - of_int t) <? 1)%float then
    Some (mkOption (PyInt t) actual_fps s true)
  else if (actual_fps <=? 240)%float then
    Some (mkOption (PyFloat actual_fps) actual_fps s false)
  else None.

(** One iteration of [for target in standard_fps]: the option appended
    ([Ok (Some o)]), nothing appended ([Ok None]) or an exception. *)
Definition loop_body (current_fps : float) (t : Z) : result (option FpsOption) :=
  if (current_fps <? of_int t)%float then
    match py_div (of_int t) current_fps with
    | Raise e => Raise e
    | Ok scale_needed =>
        match choose_scale scale_needed with
        | None => Ok None
        | Some s => Ok (make_option current_fps t s)
        end
    end
  else Ok None.

Fixpoint collect_options (current_fps : float) (targets : list Z)
    (options : list FpsOption) : result (list FpsOption) :=
  match targets with
  | [] => Ok options
  | t :: rest =>
      match loop_body current_fps t with
      | Raise e => Raise e
      | Ok None => collect_options current_fps rest options
      | Ok (Some o) => collect_options current_fps rest (options ++ [o])
      end
  end.

(** Equality of the keys [(opt['actual'], opt['scale'])] as the set [seen]
    decides it: Python's [==] on each component (so [0.0 == -0.0], and a NaN
    differs from every float computed elsewhere). *)
Definition key_eqb (k1 k2 : float * Z) : bool :=
  (fst k1 =? fst k2)%float && (snd k1 =? snd k2)%Z.

Definition key_of (opt : FpsOption) : float * Z := (actual opt, scale opt).

(** The "Remove duplicates" loop, with [seen] as the list of keys added. *)
Fixpoint remove_duplicates (options : list FpsOption) (seen : list (float * Z))
    (unique_options : list FpsOption) : list FpsOption :=
  match options with
  | [] => unique_options
  | opt :: rest =>
      let key := key_of opt in
      if existsb (key_eqb key) seen then
        remove_duplicates rest seen unique_options
      else
        remove_duplicates rest (seen ++ [key]) (unique_options ++ [opt])
  end.

(** [sorted(unique_options, key=lambda x: x['actual'])]: a stable sort that
    compares keys with [<].  It is written as the stable insertion sort; on
    keys without NaN, [<] is a strict weak order and every stable sort
    returns this list. *)
Fixpoint insert_by_actual (x : FpsOption) (l : list FpsOption) : list FpsOption :=
  match l with
  | [] => [x]
  | y :: l' =>
      if (actual x <? actual y)%float then x :: y :: l'
      else y :: insert_by_actual x l'
  end.

Definition sorted_by_actual (l : list FpsOption) : list FpsOption :=
  fold_left (fun acc x => insert_by_actual x acc) l [].

Definition get_fps_options (current_fps : float) : result (list FpsOption) :=
  match collect_options current_fps standard_fps [] with
  | Raise e => Raise e
  | Ok options => Ok (sorted_by_actual (remove_duplicates options [] []))
  end.

End Utils.

(** ** utils.get_video_info: the frame rate *)

Module Probe.

(** A value of the parsed ffprobe JSON, as far as the frame-rate code tells
    values apart: a string, or a number, boolean or null. *)
Inductive jvalue : Type :=
  | JString (s : string)
  | JNonString.

(** A stream: the dict of one entry of ['streams']. *)
Definition stream : Type := gmap string jvalue.

(** ['/' in fps_str]. *)
Fixpoint contains (c : ascii) (s : string) : bool :=
  match s with
  | EmptyString => false
  | String a s' => Ascii.eqb a c || contains c s'
  end.

(** [fps_str.split('/')]. *)
Fixpoint split (c : ascii) (s : string) : list string :=
  match s with
  | EmptyString => [EmptyString]
  | String a s' =>
      if Ascii.eqb a c then EmptyString :: split c s'
      else match split c s' with
           | p :: ps => String a p :: ps
           | [] => [String a EmptyString]
           end
  end.

(** [not d] for a variable holding [None] or a dict. *)
Definition falsy (d : option stream) : bool :=
  match d with
  | Some st => bool_decide (st = ∅)
  | None => true
  end.

Definition is_kind (kind : string) (v : jvalue) : bool :=
  match v with
  | JString s => String.eqb s kind
  | JNonString => false
  end.

(** The loop "Find video stream" over [data.get('streams', [])]. *)
Fixpoint select_streams (streams : list stream) (video_stream audio_stream : option stream)
    : result (option stream * option stream) :=
  match streams with
  | [] => Ok (video_stream, audio_stream)
  | st :: rest =>
      match st !! "codec_type" with
      | None => Raise (KeyError "codec_type")
      | Some kind =>
          if is_kind "video" kind && falsy video_stream then
            select_streams rest (Some st) audio_stream
          else if is_kind "audio" kind && falsy audio_stream then
            select_streams rest video_stream (Some st)
          else select_streams rest video_stream audio_stream
      end
  end.

Section Parser.

(** [float(s)] on a str: the parsed binary64 value, or [ValueError]. *)
Variable py_float : string -> result float.

(** The block "Calculate FPS" on the value of [fps_str]. *)
Definition frame_rate (fps_str : jvalue) : result float :=
  match fps_str with
  | JNonString => Raise TypeError
  | JString s =>
      if contains "/" s then
        match split "/" s with
        | [a; b] =>
            match py_float a with
            | Raise e => Raise e
            | Ok num =>
                match py_float b with
                | Raise e => Raise e
                | Ok den => Ok (if negb (den =? 0)%float then (num / den)%float else 30%float)
                end
            end
        | _ => Raise ValueError
        end
      else py_float s
  end.

(** The value stored under ['fps'], from the list of streams: the lines
    after the block only compute the other entries of the returned dict. *)
Definition get_video_fps (streams : list stream) : result float :=
  match select_streams streams None None with
  | Raise e => Raise e
  | Ok (video_stream, _) =>
      match video_stream with
      | Some st =>
          if bool_decide (st = ∅) then Raise (RuntimeError NoVideoStream)
          else frame_rate (default (JString "30/1") (st !! "r_frame_rate"))
      | None => Raise (RuntimeError NoVideoStream)
      end
  end.

End Parser.

(** *** A parser for plain decimal numerals

    [decimal_float] is [float(s)] for the numerals [[sign] digits [. digits]],
    correctly rounded; it serves to run examples.  The other spellings
    Python accepts (exponents, [inf], [nan], underscores, blanks) are outside
    its domain. *)
Definition digit_of (c : ascii) : option Z :=
  let n := Z.of_N (N_of_ascii c) in
  if (48 <=? n) && (n <=? 57) then Some (n - 48) else None.

Fixpoint digits_value (s : string) (acc : Z) : option Z :=
  match s with
  | EmptyString => Some acc
  | String c s' =>
      match digit_of c with
      | Some d => digits_value s' (10 * acc + d)
      | None => None
      end
  end.

(** The binary64 nearest to [n / d], for [0 <= n] and [0 < d]. *)
Definition round_ratio (neg : bool) (n d : Z) : float :=
  SF2Prim
    match n with
    | Zpos _ =>
        let '(q, e, l) := SFdiv_core_binary prec emax n 0 d 0 in
        binary_round_aux prec emax neg q e l
    | _ => S754_zero neg
    end.

Definition decimal_float (s : string) : result float :=
  let '(neg, body) :=
    match s with
    | String "-" r => (true, r)
    | String "+" r => (false, r)
    | _ => (false, s)
    end in
  match split "." body with
  | [ip] =>
      match ip, digits_value ip 0 with
      | String _ _, Some n => Ok (round_ratio neg n 1)
      | _, _ => Raise ValueError
      end
  | [ip; fp] =>
      match String.append ip fp, digits_value (String.append ip fp) 0 with
      | String _ _, Some n => Ok (round_ratio neg n (10 ^ Z.of_nat (String.length fp)))
      | _, _ => Raise ValueError
      end
  | _ => Raise ValueError
  end.

End Probe.

(** ** core.py: the world the pipeline acts on *)

Module Core.

(** A path is the list of its components below the root; the paths of the
    model are absolute and free of symbolic links, so [Path.resolve] is the
    identity on them. *)
Definition path : Type := list string.

(** One argument of an external command line: what [str(x)] was taken of. *)
Inductive arg : Type :=
  | Str (s : string)
  | OfPath (p : path)
  | OfInt (n : Z)
  | OfNum (x : pynum).

(** The stage labels passed to [progress_callback]. *)
Inductive label : Type :=
  | ExtractingFrames
  | RunningInterpolation (scale : Z)
  | ProcessingAudio
  | EncodingFinalVideo
  | Complete.

(** What the run leaves behind for an observer: every [subprocess.run]
    (with the working directory it was started in) and every progress
    report, oldest first. *)
Inductive event : Type :=
  | EvRun (dir : path) (cmd : list arg)
  | EvProgress (l : label) (pct : Z).

Record world : Type := mkWorld {
  fs : gset path;      (** the paths that exist *)
  cwd : path;          (** [os.getcwd()] *)
  log : list event;
  sys_path : list arg  (** [sys.path], first entry first *)
}.

(** ** The state-and-exception monad of the embedding

    A Python call maps the world to a result and a world; a raise keeps
    the effects made before it. *)
Definition M (A : Type) : Type := world -> result A * world.

Definition ret {A : Type} (a : A) : M A := fun w => (Ok a, w).

Definition raise {A : Type} (e : exn) : M A := fun w => (Raise e, w).

Definition bind {A B : Type} (m : M A) (k : A -> M B) : M B :=
  fun w =>
    match m w with
    | (Ok a, w1) => k a w1
    | (Raise e, w1) => (Raise e, w1)
    end.

(** [try: body finally: fin], for a [fin] without [return]: [fin] runs
    on every exit of [body]; its own exception, if any, replaces the
    outcome of [body]. *)
Definition try_finally {A : Type} (body : M A) (fin : M unit) : M A :=
  fun w =>
    let (r, w1) := body w in
    match fin w1 with
    | (Ok _, w2) => (r, w2)
    | (Raise e, w2) => (Raise e, w2)
    end.

Declare Scope py_scope.
Delimit Scope py_scope with py.
Notation "x <- m ;; k" := (bind m (fun x => k))
  (at level 100, m at next level, right associativity) : py_scope.
Notation "m ;; k" := (bind m (fun _ => k))
  (at level 100, right associativity) : py_scope.
Local Open Scope py_scope.

(** ** File-system primitives *)

Definition exists_ (p : path) : M bool :=
  fun w => (Ok (bool_decide (p ∈ fs w)), w).

Definition ancestors (p : path) : list path :=
  map (fun n => take n p) (seq 0 (S (length p))).

(** [p.mkdir(parents=True, exist_ok=True)]. *)
Definition mkdir_p (p : path) : M unit :=
  fun w => (Ok tt, mkWorld (fs w ∪ list_to_set (ancestors p)) (cwd w) (log w) (sys_path w)).

Definition ends_with_png (name : string) : bool :=
  let n := String.length name in
  (4 <=? n)%nat && String.eqb (substring (n - 4) 4 name) ".png".

Definition is_png_child (dir q : path) : bool :=
  match last q with
  | Some name => bool_decide (q = dir ++ [name]) && ends_with_png name
  | None => false
  end.

(** [list(dir.glob("*.png"))]. *)
Definition glob_png (dir : path) : M (list path) :=
  fun w => (Ok (filter (fun q => is_png_child dir q = true) (elements (fs w))), w).

(** [shutil.rmtree(p)]: [p] and everything below it cease to exist. *)
Definition rmtree (p : path) : M unit :=
  fun w => (Ok tt, mkWorld (filter (fun q => ¬ p `prefix_of` q) (fs w)) (cwd w) (log w)
                     (sys_path w)).

Definition getcwd : M path := fun w => (Ok (cwd w), w).

Definition chdir (p : path) : M unit :=
  fun w => (Ok tt, mkWorld (fs w) p (log w) (sys_path w)).

(** [sys.path.insert(0, entry)], once [sys] is at hand. *)
Definition sys_path_insert (entry : arg) : M unit :=
  fun w => (Ok tt, mkWorld (fs w) (cwd w) (log w) (entry :: sys_path w)).

(** ** The environment of a run *)

Section Environment.

(** The names bound in the global scope of the module [ufps.core] (or in
    [builtins]) when its functions run. *)
Variable globals : list string.

(** [shutil.which], [os.environ] (values read as paths), [Path.home()]
    and [sys.executable]. *)
Variable which : string -> option string.
Variable environ : string -> option path.
Variable home : path.
Variable sys_executable : string.

(** An external process: from the command and the world it starts in, its
    exit status, its standard error text and the file system it leaves. *)
Variable run_tool : list arg -> world -> Z * string * gset path.

(** The directory [tempfile.mkdtemp] creates; its name (the prefix built
    from the sanitized stem and the timestamp, and the random suffix) is
    the environment's choice. *)
Variable mkdtemp_name : world -> path.

(** [int(math.log2(n))] for an int [n > 0], as the platform computes it: a
    binary64 logarithm, truncated.  It need not be the exact floor of the
    logarithm: rounding lifts the result for an [n] just below a large
    power of two to the next integer. *)
Variable int_log2 : Z -> Z.

(** Reading a global name: [NameError] when it is not bound. *)
Definition global (name : string) : M unit :=
  if bool_decide (name ∈ globals) then ret tt else raise (NameError name).

(** [subprocess.run(cmd, capture_output=True, text=True)]: exit status
    and standard error of the process. *)
Definition subprocess_run (cmd : list arg) : M (Z * string) :=
  fun w =>
    let '(rc, err, fs') := run_tool cmd w in
    (Ok (rc, err), mkWorld fs' (cwd w) (log w ++ [EvRun (cwd w) cmd]) (sys_path w)).

Definition mkdtemp : M path :=
  fun w =>
    let d := mkdtemp_name w in
    (Ok d, mkWorld (fs w ∪ {[ d ]}) (cwd w) (log w) (sys_path w)).

(** [progress_callback(label, pct)] when a callback was given. *)
Definition progress (cb : option (label -> Z -> M unit)) (l : label) (pct : Z) : M unit :=
  match cb with
  | Some f =>
      fun w => f l pct (mkWorld (fs w) (cwd w) (log w ++ [EvProgress l pct]) (sys_path w))
  | None => ret tt
  end.

(** ** class VideoProcessor *)

Record VideoProcessor : Type := mkVideoProcessor {
  ffmpeg : string;
  ffprobe : string
}.

(** [a or b] on optional strings: [None] and [""] are false. *)
Definition or_else (a b : option string) : option string :=
  match a with
  | Some s => if String.eqb s "" then b else a
  | None => b
  end.

Definition VideoProcessor_init (ffmpeg_path ffprobe_path : option string) : M VideoProcessor :=
  match or_else ffmpeg_path (which "ffmpeg"), or_else ffprobe_path (which "ffprobe") with
  | Some f, Some p =>
      if String.eqb f "" || String.eqb p "" then raise (RuntimeError FFmpegNotFound)
      else ret (mkVideoProcessor f p)
  | _, _ => raise (RuntimeError FFmpegNotFound)
  end.

Definition frame_pattern (dir : path) : path := dir ++ ["frame_%08d.png"].

Definition extract_frames_cmd (self : VideoProcessor) (video_path output_dir : path)
    (quality : Z) : list arg :=
  [Str (ffmpeg self); Str "-i"; OfPath video_path; Str "-qscale:v"; OfInt quality;
   Str "-qmin"; Str "1"; OfPath (frame_pattern output_dir);
   Str "-loglevel"; Str "error"].

Definition extract_frames (self : VideoProcessor) (video_path output_dir : path)
    (quality : Z) : M Z :=
  mkdir_p output_dir ;;
  res <- subprocess_run (extract_frames_cmd self video_path output_dir quality) ;;
  if negb (fst res =? 0) then raise (RuntimeError (ExtractFailed (snd res)))
  else
    frames <- glob_png output_dir ;;
    ret (Z.of_nat (length frames)).

Definition extract_audio_cmd (self : VideoProcessor) (video_path output_path : path)
    : list arg :=
  [Str (ffmpeg self); Str "-i"; OfPath video_path; Str "-vn"; Str "-acodec";
   Str "copy"; OfPath output_path; Str "-loglevel"; Str "error"; Str "-y"].

Definition extract_audio (self : VideoProcessor) (video_path output_path : path)
    : M (option path) :=
  _ <- subprocess_run (extract_audio_cmd self video_path output_path) ;;
  present <- exists_ output_path ;;
  ret (if present then Some output_path else None).

Definition encode_cmd_audio (self : VideoProcessor) (frames_dir output_path : path)
    (fps : pynum) (audio_path : path) (crf : Z) : list arg :=
  [Str (ffmpeg self); Str "-r"; OfNum fps; Str "-i"; OfPath (frame_pattern frames_dir);
   Str "-i"; OfPath audio_path; Str "-c:v"; Str "libx264"; Str "-crf"; OfInt crf;
   Str "-preset"; Str "slow"; Str "-pix_fmt"; Str "yuv420p"; Str "-c:a"; Str "copy";
   OfPath output_path; Str "-loglevel"; Str "error"; Str "-y"].

Definition encode_cmd_silent (self : VideoProcessor) (frames_dir output_path : path)
    (fps : pynum) (crf : Z) : list arg :=
  [Str (ffmpeg self); Str "-r"; OfNum fps; Str "-i"; OfPath (frame_pattern frames_dir);
   Str "-c:v"; Str "libx264"; Str "-crf"; OfInt crf;
   Str "-preset"; Str "slow"; Str "-pix_fmt"; Str "yuv420p";
   OfPath output_path; Str "-loglevel"; Str "error"; Str "-y"].

Definition encode_video (self : VideoProcessor) (frames_dir output_path : path)
    (fps : pynum) (audio_path : option path) (crf : Z) : M path :=
  with_audio <- match audio_path with
                | Some a => exists_ a
                | None => ret false
                end ;;
  let cmd :=
    match audio_path with
    | Some a =>
        if with_audio then encode_cmd_audio self frames_dir output_path fps a crf
        else encode_cmd_silent self frames_dir output_path fps crf
    | None => encode_cmd_silent self frames_dir output_path fps crf
    end in
  res <- subprocess_run cmd ;;
  if negb (fst res =? 0) then raise (RuntimeError (EncodeFailed (snd res)))
  else ret output_path.

(** ** class RIFEInterpolator *)

Record RIFEInterpolator : Type := mkRIFEInterpolator {
  rife_dir : path;
  models_dir : path
}.

(** [Path(given or os.environ.get(var, Path.home() / ".ufps" / leaf))]. *)
Definition configured_dir (given : option path) (var leaf : string) : path :=
  match given with
  | Some p => p
  | None =>
      match environ var with
      | Some p => p
      | None => home ++ [".ufps"; leaf]
      end
  end.

Definition RIFEInterpolator_init (rife_dir_arg models_dir_arg : option path)
    : M RIFEInterpolator :=
  let rd := configured_dir rife_dir_arg "UFPS_RIFE_DIR" "RIFE" in
  let md := configured_dir models_dir_arg "UFPS_MODELS_DIR" "models" in
  rife_present <- exists_ rd ;;
  if negb rife_present then raise (RuntimeError (RifeNotFound rd))
  else
    models_present <- exists_ md ;;
    if negb models_present then raise (RuntimeError (ModelsNotFound md))
    else
      (* sys.path.insert(0, str(self.rife_dir)) *)
      global "sys" ;;
      sys_path_insert (OfPath rd) ;;
      ret (mkRIFEInterpolator rd md).

Definition scripts : list string :=
  ["inference_video.py"; "inference_img.py"; "inference.py"].

Definition inference_cmd (self : RIFEInterpolator) (script_path input_dir output_dir : path)
    (exp_value : Z) (with_model_dir : bool) : list arg :=
  [Str sys_executable; OfPath script_path; Str "--img"; OfPath input_dir;
   Str "--output"; OfPath output_dir; Str "--exp"; OfInt exp_value]
  ++ (if with_model_dir then [Str "--modelDir"; OfPath (models_dir self)] else []).

(** One invocation and its check: [Some n] is the [return len(output_frames)],
    [None] falls through to what follows in the loop body. *)
Definition attempt (self : RIFEInterpolator) (script_path input_dir output_dir : path)
    (exp_value : Z) (with_model_dir : bool) : M (option Z) :=
  global "sys" ;;
  res <- subprocess_run
           (inference_cmd self script_path input_dir output_dir exp_value with_model_dir) ;;
  if fst res =? 0 then
    output_frames <- glob_png output_dir ;;
    match output_frames with
    | [] => ret None
    | _ :: _ => ret (Some (Z.of_nat (length output_frames)))
    end
  else ret None.

(** [for script in scripts: ...]; [Some n] when the loop was left by a
    [return], [None] when it ran to its end. *)
Fixpoint try_scripts (self : RIFEInterpolator) (candidates : list string)
    (input_dir output_dir : path) (exp_value : Z) : M (option Z) :=
  match candidates with
  | [] => ret None
  | script :: rest =>
      let script_path := rife_dir self ++ [script] in
      present <- exists_ script_path ;;
      if negb present then try_scripts self rest input_dir output_dir exp_value
      else
        first <- attempt self script_path input_dir output_dir exp_value true ;;
        match first with
        | Some n => ret (Some n)
        | None =>
            second <- attempt self script_path input_dir output_dir exp_value false ;;
            match second with
            | Some n => ret (Some n)
            | None => try_scripts self rest input_dir output_dir exp_value
            end
        end
  end.

(** [int(math.log2(scale))] for an int [scale]: [math.log2] raises
    [ValueError] (math domain error) for [scale <= 0]. *)
Definition exponent_of (scale : Z) : M Z :=
  if scale <=? 0 then raise ValueError else ret (int_log2 scale).

Definition interpolate (self : RIFEInterpolator) (input_dir output_dir : path)
    (scale : Z) : M Z :=
  mkdir_p output_dir ;;
  exp_value <- exponent_of scale ;;
  original_dir <- getcwd ;;
  try_finally
    (chdir (rife_dir self) ;;
     found <- try_scripts self scripts input_dir output_dir exp_value ;;
     match found with
     | Some n => ret n
     | None => raise (RuntimeError NoCompatibleScript)
     end)
    (chdir original_dir).

(** ** process_video *)

Definition initialize_processors : M (VideoProcessor * RIFEInterpolator) :=
  video_proc <- VideoProcessor_init None None ;;
  rife_proc <- RIFEInterpolator_init None None ;;
  ret (video_proc, rife_proc).

Definition step1_extract_frames (cb : option (label -> Z -> M unit))
    (video_proc : VideoProcessor) (input_path frames_dir : path) : M Z :=
  progress cb ExtractingFrames 0 ;;
  extract_frames video_proc input_path frames_dir 1.

Definition step2_interpolation (cb : option (label -> Z -> M unit))
    (rife_proc : RIFEInterpolator) (frames_dir interp_dir : path) (scale : Z) : M Z :=
  progress cb (RunningInterpolation scale) 25 ;;
  interpolate rife_proc frames_dir interp_dir scale.

Definition step3_extract_audio (cb : option (label -> Z -> M unit))
    (video_proc : VideoProcessor) (input_path temp_dir : path) : M (option path) :=
  progress cb ProcessingAudio 50 ;;
  extract_audio video_proc input_path (temp_dir ++ ["audio.aac"]).

Definition step4_encode (cb : option (label -> Z -> M unit))
    (video_proc : VideoProcessor) (interp_dir output_path : path)
    (target_fps : pynum) (audio : option path) (crf : Z) : M path :=
  progress cb EncodingFinalVideo 75 ;;
  encode_video video_proc interp_dir output_path target_fps audio crf.

(** The [try] block. *)
Definition pipeline (temp_dir input_path output_path : path) (scale : Z)
    (target_fps : pynum) (crf : Z) (cb : option (label -> Z -> M unit)) : M bool :=
  let frames_dir := temp_dir ++ ["frames"] in
  let interp_dir := temp_dir ++ ["interpolated"] in
  procs <- initialize_processors ;;
  _ <- step1_extract_frames cb (fst procs) input_path frames_dir ;;
  _ <- step2_interpolation cb (snd procs) frames_dir interp_dir scale ;;
  audio <- step3_extract_audio cb (fst procs) input_path temp_dir ;;
  _ <- step4_encode cb (fst procs) interp_dir output_path target_fps audio crf ;;
  progress cb Complete 100 ;;
  ret true.

(** The [finally] block. *)
Definition cleanup (temp_dir : path) : M unit :=
  present <- exists_ temp_dir ;;
  if present then rmtree temp_dir else ret tt.

Definition process_video (input_path output_path : path) (scale : Z)
    (target_fps : pynum) (crf : Z) (cb : option (label -> Z -> M unit)) : M bool :=
  temp_dir <- mkdtemp ;;
  try_finally
    (pipeline temp_dir input_path output_path scale target_fps crf cb)
    (cleanup temp_dir).

(** The exits of the [try] block as the stage sequence allows them: the
    block leaves at the first stage that raises, in the world of that
    raise and with that exception, or after the last stage with [True]. *)
Inductive pipeline_exit (temp_dir input_path output_path : path) (scale : Z)
    (target_fps : pynum) (crf : Z) (cb : option (label -> Z -> M unit))
    (w0 : world) : result bool -> world -> Prop :=
  | exit_initialize e w1 :
      initialize_processors w0 = (Raise e, w1) ->
      pipeline_exit temp_dir input_path output_path scale target_fps crf cb w0 (Raise e) w1
  | exit_step1 procs w1 e w2 :
      initialize_processors w0 = (Ok procs, w1) ->
      step1_extract_frames cb (fst procs) input_path (temp_dir ++ ["frames"]) w1
        = (Raise e, w2) ->
      pipeline_exit temp_dir input_path output_path scale target_fps crf cb w0 (Raise e) w2
  | exit_step2 procs w1 n1 w2 e w3 :
      initialize_processors w0 = (Ok procs, w1) ->
      step1_extract_frames cb (fst procs) input_path (temp_dir ++ ["frames"]) w1
        = (Ok n1, w2) ->
      step2_interpolation cb (snd procs) (temp_dir ++ ["frames"])
        (temp_dir ++ ["interpolated"]) scale w2 = (Raise e, w3) ->
      pipeline_exit temp_dir input_path output_path scale target_fps crf cb w0 (Raise e) w3
  | exit_step3 procs w1 n1 w2 n2 w3 e w4 :
      initialize_processors w0 = (Ok procs, w1) ->
      step1_extract_frames cb (fst procs) input_path (temp_dir ++ ["frames"]) w1
        = (Ok n1, w2) ->
      step2_interpolation cb (snd procs) (temp_dir ++ ["frames"])
        (temp_dir ++ ["interpolated"]) scale w2 = (Ok n2, w3) ->
      step3_extract_audio cb (fst procs) input_path temp_dir w3 = (Raise e, w4) ->
      pipeline_exit temp_dir input_path output_path scale target_fps crf cb w0 (Raise e) w4
  | exit_step4 procs w1 n1 w2 n2 w3 audio w4 e w5 :
      initialize_processors w0 = (Ok procs, w1) ->
      step1_extract_frames cb (fst procs) input_path (temp_dir ++ ["frames"]) w1
        = (Ok n1, w2) ->
      step2_interpolation cb (snd procs) (temp_dir ++ ["frames"])
        (temp_dir ++ ["interpolated"]) scale w2 = (Ok n2, w3) ->
      step3_extract_audio cb (fst procs) input_path temp_dir w3 = (Ok audio, w4) ->
      step4_encode cb (fst procs) (temp_dir ++ ["interpolated"]) output_path
        target_fps audio crf w4 = (Raise e, w5) ->
      pipeline_exit temp_dir input_path output_path scale target_fps crf cb w0 (Raise e) w5
  | exit_complete procs w1 n1 w2 n2 w3 audio w4 out w5 r w6 :
      initialize_processors w0 = (Ok procs, w1) ->
      step1_extract_frames cb (fst procs) input_path (temp_dir ++ ["frames"]) w1
        = (Ok n1, w2) ->
      step2_interpolation cb (snd procs) (temp_dir ++ ["frames"])
        (temp_dir ++ ["interpolated"]) scale w2 = (Ok n2, w3) ->
      step3_extract_audio cb (fst procs) input_path temp_dir w3 = (Ok audio, w4) ->
      step4_encode cb (fst procs) (temp_dir ++ ["interpolated"]) output_path
        target_fps audio crf w4 = (Ok out, w5) ->
      (progress cb Complete 100 ;; ret true) w5 = (r, w6) ->
      pipeline_exit temp_dir input_path output_path scale target_fps crf cb w0 r w6.

End Environment.

(** The global scope of [ufps/core.py]: its imports ([os], [subprocess],
    [shutil], [tempfile], [Path], [math], [datetime]) and its three
    definitions.  The module has no [import sys], and [sys] is not a
    builtin name. *)
Definition core_globals : list string :=
  ["os"; "subprocess"; "shutil"; "tempfile"; "Path"; "math"; "datetime";
   "VideoProcessor"; "RIFEInterpolator"; "process_video"].

End Core.

(** ** utils.py: locating the tools and listing the videos *)

Module Files.

Import Core.
Local Open Scope py_scope.

Section FindFfmpeg.

(** [shutil.which], [platform.system()] and [Path.home()]. *)
Variable which : string -> option string.
Variable system : string.
Variable home : path.

(** Truth value of what [shutil.which] returns. *)
Definition found (o : option string) : bool :=
  match o with
  | Some s => negb (String.eqb s "")
  | None => false
  end.

Definition possible_paths : list path :=
  [["usr"; "local"; "bin"; "ffmpeg"];
   ["opt"; "homebrew"; "bin"; "ffmpeg"];
   ["opt"; "local"; "bin"; "ffmpeg"];
   home ++ [".ufps"; "ffmpeg"; "ffmpeg"]].

(** [for path in possible_paths: ...]; [Some] is the [return] in the loop. *)
Fixpoint probe_paths (candidates : list path) : M (option (path * path)) :=
  match candidates with
  | [] => ret None
  | p :: rest =>
      present <- exists_ p ;;
      if present then
        let ffprobe := removelast p ++ ["ffprobe"] in
        probe_present <- exists_ ffprobe ;;
        if probe_present then ret (Some (p, ffprobe)) else probe_paths rest
      else probe_paths rest
  end.

(** The pair returned holds what [str] was taken of, or [None]. *)
Definition find_ffmpeg : M (option arg * option arg) :=
  let ffmpeg_path := which "ffmpeg" in
  let ffprobe_path := which "ffprobe" in
  if found ffmpeg_path && found ffprobe_path then
    ret (option_map Str ffmpeg_path, option_map Str ffprobe_path)
  else if String.eqb system "Darwin" then
    hit <- probe_paths possible_paths ;;
    match hit with
    | Some (p, q) => ret (Some (OfPath p), Some (OfPath q))
    | None => ret (None, None)
    end
  else ret (None, None).

End FindFfmpeg.

(** An entry of the directory: its name (UTF-8) and whether [is_file()]. *)
Record entry : Type := mkEntry {
  name : string;
  is_file : bool
}.

Definition video_extensions : list string :=
  [".mp4"; ".avi"; ".mov"; ".mkv"; ".webm"; ".flv"; ".wmv"; ".m4v"].

(** The part of [s] from its last ['.'] on, if it has one. *)
Fixpoint from_last_dot (s : string) : option string :=
  match s with
  | EmptyString => None
  | String c s' =>
      match from_last_dot s' with
      | Some t => Some t
      | None => if Ascii.eqb c "." then Some s else None
      end
  end.

(** [PurePath.suffix]: [name[i:]] for [i = name.rfind('.')] when
    [0 < i < len(name) - 1], else the empty string. *)
Definition suffix (file_name : string) : string :=
  match file_name with
  | EmptyString => EmptyString
  | String _ rest =>
      match from_last_dot rest with
      | Some t => if (String.length t =? 1)%nat then EmptyString else t
      | None => EmptyString
      end
  end.

Section VideoFiles.

(** [str.lower]. *)
Variable lower : string -> string.

Definition is_video (file : entry) : bool :=
  existsb (String.eqb (lower (suffix (name file)))) video_extensions && is_file file.

(** [sorted(video_files, key=lambda x: x.name.lower())], as the stable
    insertion sort; the order of strings is total. *)
Fixpoint insert_by_name (x : entry) (l : list entry) : list entry :=
  match l with
  | [] => [x]
  | y :: l' =>
      if String.ltb (lower (name x)) (lower (name y)) then x :: y :: l'
      else y :: insert_by_name x l'
  end.

Definition sorted_by_name (l : list entry) : list entry :=
  fold_left (fun acc x => insert_by_name x acc) l [].

(** From the entries of the directory in the order [iterdir] yields them. *)
Definition get_video_files (entries : list entry) : list entry :=
  sorted_by_name (List.filter is_video entries).

End VideoFiles.

End Files.

(* ------------------------------------------------------------------ *)
(** * Auxiliary definitions for the statements *)

Import Utils.

(** A non-exact option: its target is its own actual rate. *)
Definition opt (a : float) (s : Z) : FpsOption := mkOption (PyFloat a) a s false.

(** The binary64 value of the literal [29.97]. *)
Definition fps_29_97 : float := 0x1.df851eb851eb8p+4%float.

(** A shift record with nothing shifted out yet. *)
Definition exact_rec (m : Z) : shr_record :=
  {| shr_m := m; shr_r := false; shr_s := false |}.

(** The 53-bit mantissa of a power of two. *)
Definition pow2_mantissa : positive := Nat.iter 52 xO xH.

(** [produced c o]: some iteration of the loop at input [c] appends [o]. *)
Definition produced (c : float) (o : FpsOption) : Prop :=
  exists t, In t standard_fps /\ loop_body c t = Ok (Some o).

(** What the loop guarantees of an option it appends. *)
Definition option_inv (c : float) (o : FpsOption) : Prop :=
  actual o = (c * of_int (scale o))%float /\
  (scale o = 2 \/ scale o = 4 \/ scale o = 8) /\
  if exact o then
    exists t, In t standard_fps /\ target o = PyInt t /\
      (PrimFloat.abs (actual o - of_int t) <? 1)%float = true
  else
    target o = PyFloat (actual o) /\ (actual o <=? 240)%float = true.

Definition lt_actual (a b : FpsOption) : Prop := (actual a <? actual b)%float = true.
Definition lt_scale (a b : FpsOption) : Prop := scale a < scale b.
Definition distinct_keys (a b : FpsOption) : Prop :=
  key_eqb (key_of a) (key_of b) = false.

(** The exceptions with which the two constructors at the head of the
    pipeline can fail. *)
Definition init_failure (e : exn) : Prop :=
  e = RuntimeError FFmpegNotFound \/
  (exists d, e = RuntimeError (RifeNotFound d)) \/
  (exists d, e = RuntimeError (ModelsNotFound d)) \/
  e = NameError "sys".

(** [ran_in d ev]: the event is an external command started in directory [d]. *)
Definition ran_in (d : Core.path) (ev : Core.event) : Prop :=
  exists cmd, ev = Core.EvRun d cmd.

(** A video stream whose only other entry is its frame rate. *)
Definition video_stream_with (rate : string) : Probe.stream :=
  {[ "codec_type" := Probe.JString "video"; "r_frame_rate" := Probe.JString rate ]}.

(** A sample installation: the tool's root holds [inference_video.py], and
    the inference script, when run, exits 0 and writes one frame. *)
(** The examples take the exact logarithm for [int(math.log2(n))]: the
    two agree at the multipliers 2, 4 and 8 the examples use. *)
Definition sample_log2 : Z -> Z := Z.log2.

Definition demo_rife : Core.RIFEInterpolator :=
  Core.mkRIFEInterpolator ["opt"; "RIFE"] ["opt"; "models"].

Definition demo_world : Core.world :=
  Core.mkWorld {[ ["opt"; "RIFE"; "inference_video.py"] ]} ["home"; "user"] [] [].

Definition good_tool (cmd : list Core.arg) (w : Core.world) : Z * string * gset Core.path :=
  (0, "", Core.fs w ∪ {[ ["out"; "frame_00000001.png"] ]}).

(** A transcoder that fails and writes nothing (a source without audio). *)
Definition failing_tool (cmd : list Core.arg) (w : Core.world) : Z * string * gset Core.path :=
  (1, "Output file does not contain any stream", Core.fs w).

Definition demo_processor : Core.VideoProcessor :=
  Core.mkVideoProcessor "ffmpeg" "ffprobe".

(** The number of occurrences of a character in a string. *)
Fixpoint count_char (c : ascii) (s : string) : nat :=
  match s with
  | EmptyString => 0
  | String a s' => (if Ascii.eqb a c then 1 else 0) + count_char c s'
  end.

(** A stream that carries a kind other than video. *)
Definition other_kind (st : Probe.stream) : Prop :=
  exists kind, st !! "codec_type" = Some kind /\ Probe.is_kind "video" kind = false.

(** An audio stream with its codec name. *)
Definition audio_stream_with (codec : string) : Probe.stream :=
  {[ "codec_type" := Probe.JString "audio"; "codec_name" := Probe.JString codec ]}.

(** The order of the listing: by lowercased name. *)
Definition name_le (lower : string -> string) (a b : Files.entry) : Prop :=
  String.leb (lower (Files.name a)) (lower (Files.name b)) = true.

(** The world after [mkdir(parents=True, exist_ok=True)] of [p]. *)
Definition with_dir (p : Core.path) (w : Core.world) : Core.world :=
  Core.mkWorld (Core.fs w ∪ list_to_set (Core.ancestors p)) (Core.cwd w) (Core.log w)
    (Core.sys_path w).

(** A PATH without the tools, and one with both. *)
Definition no_which (tool : string) : option string := None.

Definition usr_bin_which (tool : string) : option string :=
  Some (String.append "/usr/bin/" tool).

Definition no_environ (var : string) : option Core.path := None.

(** A fixed name for the temporary directory, an installation with the
    interpolator, its models and one inference script under the home
    directory, and a tool that succeeds and leaves one frame in the
    directory of interpolated frames. *)
Definition fixed_temp (w : Core.world) : Core.path := ["tmp"; "ufps_x"].

Definition installed_world : Core.world :=
  Core.mkWorld {[ ["home"; "user"; ".ufps"; "RIFE"];
                  ["home"; "user"; ".ufps"; "models"];
                  ["home"; "user"; ".ufps"; "RIFE"; "inference_video.py"] ]}
               ["home"; "user"] [] [].

Definition frame_writer (cmd : list Core.arg) (w : Core.world)
    : Z * string * gset Core.path :=
  (0, "", Core.fs w ∪ {[ ["tmp"; "ufps_x"; "interpolated"; "frame_00000001.png"] ]}).


(** A complete run on that installation, with [sys] bound. *)
Definition installed_run : result bool * Core.world :=
  Core.process_video ("sys" :: Core.core_globals) usr_bin_which no_environ
    ["home"; "user"] "python3" frame_writer fixed_temp sample_log2
    ["in.mp4"] ["out.mp4"] 2 (PyInt 60) 18 None installed_world.


(** The first candidate script present in the tool's root. *)
Definition first_script (self : Core.RIFEInterpolator) (files : gset Core.path)
    : option string :=
  List.find (fun s => bool_decide (Core.rife_dir self ++ [s] ∈ files)) Core.scripts.

(** [inference_event exe self cands i o x d ev]: the event is an inference
    command on one of the candidate scripts, in either variant, started in
    directory [d]. *)
Definition inference_event (sys_executable : string) (self : Core.RIFEInterpolator)
    (cands : list string) (i o : Core.path) (x : Z) (d : Core.path)
    (ev : Core.event) : Prop :=
  exists script with_model_dir,
    In script cands /\
    ev = Core.EvRun d (Core.inference_cmd sys_executable self
                         (Core.rife_dir self ++ [script]) i o x with_model_dir).


(** The interpolator configured on that installation. *)
Definition installed_rife : Core.RIFEInterpolator :=
  Core.mkRIFEInterpolator ["home"; "user"; ".ufps"; "RIFE"]
                          ["home"; "user"; ".ufps"; "models"].


(* ------------------------------------------------------------------ *)
(** * Properties *)

(** ** Binary64 comparison and rounding facts *)

Lemma SFcompare_antisym (f1 f2 : spec_float) :
  SFcompare f2 f1 = option_map CompOpp (SFcompare f1 f2).
Proof.
  destruct f1 as [s1 | s1 | | s1 m1 e1], f2 as [s2 | s2 | | s2 m2 e2];
    try destruct s1; try destruct s2; simpl; try reflexivity;
    pose proof (Pos.compare_cont_antisym m1 m2 Eq) as Hm; simpl in Hm;
    rewrite (Z.compare_antisym e1 e2), <- Hm;
    destruct (e1 ?= e2); simpl; try reflexivity;
    destruct (Pos.compare_cont Eq m1 m2); reflexivity.
Qed.

Lemma float_eqb_sym (a b : float) : (a =? b)%float = (b =? a)%float.
Proof.
  rewrite !FloatAxioms.eqb_spec. unfold SFeqb.
  rewrite (SFcompare_antisym (Prim2SF a) (Prim2SF b)).
  destruct (SFcompare (Prim2SF a) (Prim2SF b)) as [[]|]; reflexivity.
Qed.

Lemma float_ltb_asym (a b : float) :
  (a <? b)%float = true -> (b <? a)%float = false.
Proof.
  rewrite !FloatAxioms.ltb_spec. unfold SFltb.
  rewrite (SFcompare_antisym (Prim2SF a) (Prim2SF b)).
  destruct (SFcompare (Prim2SF a) (Prim2SF b)) as [[]|]; simpl; congruence.
Qed.

Lemma float_ltb_neq (a b : float) :
  (a <? b)%float = true -> (a =? b)%float = false.
Proof.
  rewrite FloatAxioms.ltb_spec, FloatAxioms.eqb_spec. unfold SFltb, SFeqb.
  destruct (SFcompare (Prim2SF a) (Prim2SF b)) as [[]|]; simpl; congruence.
Qed.

Lemma float_ltb_irrefl (a : float) : (a <? a)%float = false.
Proof.
  destruct (a <? a)%float eqn:H; [|reflexivity].
  pose proof (float_ltb_asym _ _ H). congruence.
Qed.

(** A float that compares with something is not a NaN, hence equal to itself. *)
Lemma SFcompare_refl (f : spec_float) :
  f <> S754_nan -> SFcompare f f = Some Eq.
Proof.
  destruct f as [s | s | | s m e]; try destruct s; simpl; intros H;
    try congruence; rewrite Z.compare_refl, Pos.compare_cont_refl; reflexivity.
Qed.

Lemma float_eqb_refl (a : float) :
  Prim2SF a <> S754_nan -> (a =? a)%float = true.
Proof. intros H. rewrite FloatAxioms.eqb_spec. unfold SFeqb. now rewrite SFcompare_refl. Qed.

Lemma float_leb_not_nan (a b : float) :
  (a <=? b)%float = true -> Prim2SF a <> S754_nan.
Proof.
  rewrite FloatAxioms.leb_spec. unfold SFleb. intros H E. rewrite E in H. discriminate.
Qed.

Lemma float_ltb_not_nan_l (a b : float) :
  (a <? b)%float = true -> Prim2SF a <> S754_nan.
Proof.
  rewrite FloatAxioms.ltb_spec. unfold SFltb. intros H E. rewrite E in H. discriminate.
Qed.

Lemma float_ltb_not_nan_r (a b : float) :
  (a <? b)%float = true -> Prim2SF b <> S754_nan.
Proof.
  rewrite FloatAxioms.ltb_spec. unfold SFltb. intros H E. rewrite E in H.
  destruct (Prim2SF a); discriminate.
Qed.

Lemma float_abs_sub_not_nan (a t b : float) :
  (PrimFloat.abs (a - t) <? b)%float = true -> Prim2SF a <> S754_nan.
Proof.
  intros H E. apply float_ltb_not_nan_l in H. apply H.
  rewrite FloatAxioms.abs_spec, FloatAxioms.sub_spec, E. reflexivity.
Qed.

(** ** Rounding a mantissa that ends in zeros *)

Lemma iter_pos_nat {A : Type} (f : A -> A) (p : positive) (x : A) :
  SpecFloat.iter_pos f p x = Nat.iter (Pos.to_nat p) f x.
Proof.
  revert x. induction p as [p IH | p IH |]; intros x; simpl SpecFloat.iter_pos.
  - rewrite !IH, Pos2Nat.inj_xI.
    replace (S (2 * Pos.to_nat p))%nat with (Pos.to_nat p + (Pos.to_nat p + 1))%nat by lia.
    rewrite !Nat.iter_add. reflexivity.
  - rewrite !IH, Pos2Nat.inj_xO.
    replace (2 * Pos.to_nat p)%nat with (Pos.to_nat p + Pos.to_nat p)%nat by lia.
    rewrite Nat.iter_add. reflexivity.
  - reflexivity.
Qed.

Lemma shr_1_iter_xO (n : nat) (q : positive) :
  Nat.iter n shr_1 (exact_rec (Zpos (Nat.iter n xO q))) = exact_rec (Zpos q).
Proof.
  induction n as [|n IH]; [reflexivity|].
  rewrite Nat.iter_succ_r. simpl. exact IH.
Qed.

Lemma iter_xO_add (a b : nat) (q : positive) :
  Nat.iter (a + b) xO q = Nat.iter a xO (Nat.iter b xO q).
Proof. apply Nat.iter_add. Qed.

Lemma digits2_iter_xO (n : nat) (q : positive) :
  Zpos (digits2_pos (Nat.iter n xO q)) = Zpos (digits2_pos q) + Z.of_nat n.
Proof.
  induction n as [|n IH]; simpl; [lia|].
  rewrite Pos2Z.inj_succ, IH. lia.
Qed.

Lemma Zpos_iter_xO (n : nat) (q : positive) :
  Zpos (Nat.iter n xO q) = Zpos q * 2 ^ Z.of_nat n.
Proof.
  induction n as [|n IH]; [simpl; lia|].
  rewrite Nat2Z.inj_succ, Z.pow_succ_r by lia.
  simpl Nat.iter. rewrite Pos2Z.inj_xO, IH. lia.
Qed.

Lemma shr_exact (a : nat) (q : positive) (E n : Z) :
  0 <= n <= Z.of_nat a ->
  shr (exact_rec (Zpos (Nat.iter a xO q))) E n =
    (exact_rec (Zpos (Nat.iter (a - Z.to_nat n) xO q)), E + n).
Proof.
  intros Hn. destruct n as [|p|p]; simpl shr.
  - rewrite Nat.sub_0_r, Z.add_0_r. reflexivity.
  - rewrite iter_pos_nat, Z2Nat.inj_pos.
    replace (Nat.iter a xO q)
      with (Nat.iter (Pos.to_nat p + (a - Pos.to_nat p)) xO q)
      by (f_equal; lia).
    rewrite iter_xO_add, shr_1_iter_xO. reflexivity.
  - lia.
Qed.

Lemma binary_round_aux_shifted (sx : bool) (q : positive) (E : Z) (a : nat) :
  let E' := fexp prec emax (Zpos (digits2_pos q) + Z.of_nat a + E) in
  E <= E' <= E + Z.of_nat a ->
  E' <= emax - prec ->
  binary_round_aux prec emax sx (Zpos (Nat.iter a xO q)) E loc_Exact =
    S754_finite sx (Nat.iter (a - Z.to_nat (E' - E)) xO q) E'.
Proof.
  intros E' HE Hmax. unfold binary_round_aux, shr_fexp.
  cbn [Zdigits2 shr_record_of_loc]. rewrite digits2_iter_xO.
  fold E'. fold (exact_rec (Zpos (Nat.iter a xO q))).
  rewrite shr_exact by lia.
  cbn [exact_rec shr_m loc_of_shr_record round_nearest_even Zdigits2 shr_record_of_loc].
  rewrite digits2_iter_xO.
  replace (E + (E' - E)) with E' by lia.
  replace (Zpos (digits2_pos q) + Z.of_nat (a - Z.to_nat (E' - E)) + E')
    with (Zpos (digits2_pos q) + Z.of_nat a + E) by lia.
  fold E'. rewrite Z.sub_diag. cbn [shr shr_m].
  destruct (Z.leb_spec E' (emax - prec)); [reflexivity | lia].
Qed.

(** ** Multiplying a positive float by a power of two *)

Lemma valid_finite (c : float) (s : bool) (m : positive) (e : Z) :
  Prim2SF c = S754_finite s m e ->
  fexp prec emax (Zpos (digits2_pos m) + e) = e /\ e <= emax - prec.
Proof.
  intros Hc. pose proof (Prim2SF_valid c) as Hv. rewrite Hc in Hv.
  unfold SpecFloat.valid_binary, bounded, canonical_mantissa in Hv.
  apply andb_true_iff in Hv as [Hcan Hle].
  apply Z.eqb_eq in Hcan. apply Z.leb_le in Hle. auto.
Qed.

Lemma mul_pow2 (c p : float) (m : positive) (e k : Z) :
  Prim2SF c = S754_finite false m e ->
  Prim2SF p = S754_finite false pow2_mantissa (k - 52) ->
  0 <= k <= 52 ->
  e + k <= emax - prec ->
  let E' := fexp prec emax (Zpos (digits2_pos m) + e + k) in
  Prim2SF (c * p)%float =
    S754_finite false (Nat.iter (Z.to_nat (k - (E' - e))) xO m) E'
  /\ e <= E' <= e + k.
Proof.
  intros Hc Hp Hk Hmax E'.
  destruct (valid_finite _ _ _ _ Hc) as [Hcan Hle].
  assert (HE : e <= E' <= e + k).
  { subst E'. revert Hcan. unfold fexp, SpecFloat.emin. cbn [prec emax]. lia. }
  split; [|exact HE].
  rewrite mul_spec, Hc, Hp. unfold SF64mul, SFmul. cbn [xorb].
  rewrite Pos.mul_comm.
  change (pow2_mantissa * m)%positive with (Nat.iter 52 xO m).
  pose proof (binary_round_aux_shifted false m (e + (k - 52)) 52) as Hr.
  cbv zeta in Hr.
  replace (Zpos (digits2_pos m) + Z.of_nat 52 + (e + (k - 52)))
    with (Zpos (digits2_pos m) + e + k) in Hr by lia.
  fold E' in Hr. rewrite Hr by lia.
  f_equal. f_equal. lia.
Qed.

Lemma iter_xO_lt (a b : nat) (m : positive) :
  (a < b)%nat -> (Nat.iter a xO m < Nat.iter b xO m)%positive.
Proof.
  intros Hab.
  assert (H : Zpos (Nat.iter a xO m) < Zpos (Nat.iter b xO m)); [|lia].
  rewrite !Zpos_iter_xO.
  apply Z.mul_lt_mono_pos_l; [lia|].
  apply Z.pow_lt_mono_r; lia.
Qed.

Lemma mul_pow2_lt (c p1 p2 : float) (m : positive) (e k1 k2 : Z) :
  Prim2SF c = S754_finite false m e ->
  Prim2SF p1 = S754_finite false pow2_mantissa (k1 - 52) ->
  Prim2SF p2 = S754_finite false pow2_mantissa (k2 - 52) ->
  0 <= k1 -> k1 < k2 -> k2 <= 52 ->
  e + k2 <= emax - prec ->
  (c * p1 <? c * p2)%float = true.
Proof.
  intros Hc Hp1 Hp2 H0 H12 H52 Hmax.
  destruct (mul_pow2 c p1 m e k1 Hc Hp1) as [E1 B1]; [lia | lia |].
  destruct (mul_pow2 c p2 m e k2 Hc Hp2) as [E2 B2]; [lia | lia |].
  cbv zeta in E1, E2, B1, B2.
  rewrite FloatAxioms.ltb_spec, E1, E2. unfold SFltb, SFcompare.
  set (F1 := fexp prec emax (Zpos (digits2_pos m) + e + k1)) in *.
  set (F2 := fexp prec emax (Zpos (digits2_pos m) + e + k2)) in *.
  assert (HF : F1 <= F2).
  { subst F1 F2. unfold fexp. lia. }
  destruct (Z.compare_spec F1 F2) as [Heq | Hlt | Hgt]; [| reflexivity | lia].
  change (Pos.compare_cont Eq ?a ?b) with (Pos.compare a b).
  rewrite (proj2 (Pos.compare_lt_iff _ _)); [reflexivity|].
  apply iter_xO_lt. lia.
Qed.

(** ** The sign of a rounded result *)

Lemma binary_round_aux_sign (sx : bool) (mx ex : Z) (lx : location) :
  let r := binary_round_aux prec emax sx mx ex lx in
  r = S754_zero sx \/ (exists m e, r = S754_finite sx m e) \/
  r = S754_infinity sx \/ r = S754_nan.
Proof.
  unfold binary_round_aux.
  destruct (shr_fexp prec emax mx ex lx) as [mrs' e'].
  destruct (shr_fexp prec emax _ e' loc_Exact) as [mrs'' e''].
  destruct (shr_m mrs'') as [|m|m]; auto.
  destruct (e'' <=? emax - prec); eauto.
Qed.

Lemma div_pos_by_neg (t c : float) (mt : positive) (et : Z) :
  Prim2SF t = S754_finite false mt et ->
  (exists m e, Prim2SF c = S754_finite true m e) \/ Prim2SF c = S754_infinity true ->
  let r := Prim2SF (t / c)%float in
  r = S754_zero true \/ (exists m e, r = S754_finite true m e) \/
  r = S754_infinity true \/ r = S754_nan.
Proof.
  intros Ht Hc. cbv zeta. rewrite div_spec, Ht. unfold SF64div, SFdiv.
  destruct Hc as [(m & e & ->) | ->]; [|auto].
  destruct (SFdiv_core_binary prec emax (Zpos mt) et (Zpos m) e) as [[mz ez] lz].
  apply (binary_round_aux_sign true).
Qed.

(** ** Concrete runs of [get_fps_options] *)

(** The three runs named by the specification, in full. *)
Lemma fps_options_runs :
  get_fps_options 30 = Ok [opt 60 2; opt 120 4; opt 240 8] /\
  get_fps_options 24 = Ok [opt 48 2; opt 96 4; opt 192 8] /\
  get_fps_options fps_29_97 =
    Ok [opt (fps_29_97 * 2) 2; opt (fps_29_97 * 4) 4; opt (fps_29_97 * 8) 8].
Proof. repeat split; vm_compute; reflexivity. Qed.

(** C2 (as stated, refuted): the list returned for 30 has no option with
    actual 60.0, scale 2 and exact = true, and the list returned for 29.97
    has no option with exact = true at all. *)
Lemma fps_options_no_exact :
  ~ (exists l o, get_fps_options 30 = Ok l /\ In o l /\
       actual o = 60%float /\ scale o = 2 /\ exact o = true) /\
  ~ (exists l o, get_fps_options fps_29_97 = Ok l /\ In o l /\ exact o = true).
Proof.
  destruct fps_options_runs as (H30 & _ & H29). split.
  - intros (l & o & Hrun & Hin & _ & _ & Hex).
    rewrite H30 in Hrun. injection Hrun as <-.
    destruct Hin as [<- | [<- | [<- | []]]]; discriminate Hex.
  - intros (l & o & Hrun & Hin & Hex).
    rewrite H29 in Hrun. injection Hrun as <-.
    destruct Hin as [<- | [<- | [<- | []]]]; discriminate Hex.
Qed.

(** C2 (amended): the list returned for 30 has an option with actual 60.0
    and scale 2 and an option with actual 120.0 and scale 4; the list
    returned for 24 has an option with actual 48.0 and scale 2; the list
    returned for 29.97 has an option with scale 2 whose actual is within
    1.0 of 60, and every option of that list has exact = false. *)
Theorem fps_options_concrete :
  (exists l, get_fps_options 30 = Ok l /\
     (exists o, In o l /\ actual o = 60%float /\ scale o = 2) /\
     (exists o, In o l /\ actual o = 120%float /\ scale o = 4)) /\
  (exists l, get_fps_options 24 = Ok l /\
     (exists o, In o l /\ actual o = 48%float /\ scale o = 2)) /\
  (exists l, get_fps_options fps_29_97 = Ok l /\
     (exists o, In o l /\ scale o = 2 /\
        (PrimFloat.abs (actual o - 60) <? 1)%float = true) /\
     Forall (fun o => exact o = false) l).
Proof.
  destruct fps_options_runs as (H30 & H24 & H29).
  split; [|split].
  - eexists. split; [exact H30|]. split.
    + exists (opt 60 2). cbn. auto.
    + exists (opt 120 4). cbn. auto.
  - eexists. split; [exact H24|].
    exists (opt 48 2). cbn. auto.
  - eexists. split; [exact H29|]. split.
    + exists (opt (fps_29_97 * 2) 2). cbn. split; [auto|].
      split; [reflexivity | vm_compute; reflexivity].
    + repeat constructor.
Qed.

(** The parser of decimal numerals reads ["29.97"] as that value. *)
Lemma fps_29_97_parsed : Probe.decimal_float "29.97" = Ok fps_29_97.
Proof. vm_compute. reflexivity. Qed.

(** C7: at 0.0 the first iteration divides by the input and the call
    raises [ZeroDivisionError]; so it does at -0.0, and at the frame rate
    that [get_video_info] computes for the rate string ["0/1"]. *)
Theorem get_fps_options_zero_raises :
  get_fps_options 0 = Raise ZeroDivisionError /\
  get_fps_options PrimFloat.neg_zero = Raise ZeroDivisionError /\
  exists fps,
    Probe.get_video_fps Probe.decimal_float [video_stream_with "0/1"] = Ok fps /\
    get_fps_options fps = Raise ZeroDivisionError.
Proof.
  split; [vm_compute; reflexivity|]. split; [vm_compute; reflexivity|].
  exists 0%float. split; vm_compute; reflexivity.
Qed.

(** ** Structure of the option list *)

Lemma make_option_inv (c : float) (t s : Z) (o : FpsOption) :
  In t standard_fps -> s = 2 \/ s = 4 \/ s = 8 ->
  make_option c t s = Some o -> option_inv c o /\ scale o = s.
Proof.
  intros Ht Hs. unfold make_option, option_inv.
  destruct (PrimFloat.abs (c * of_int s - of_int t) <? 1)%float eqn:Habs.
  - intros [= <-]. cbn. split; [|reflexivity].
    split; [reflexivity|]. split; [exact Hs|].
    exists t. auto.
  - destruct (c * of_int s <=? 240)%float eqn:Hle; [|discriminate].
    intros [= <-]. cbn. auto.
Qed.

Lemma choose_scale_range (x : float) (s : Z) :
  choose_scale x = Some s -> s = 2 \/ s = 4 \/ s = 8.
Proof.
  unfold choose_scale.
  destruct (x <=? 2)%float; [intros [= <-]; auto|].
  destruct (x <=? 4)%float; [intros [= <-]; auto|].
  destruct (x <=? 8)%float; [intros [= <-]; auto|discriminate].
Qed.

(** Unfolding one successful iteration. *)
Lemma loop_body_some (c : float) (t : Z) (o : FpsOption) :
  loop_body c t = Ok (Some o) ->
  (c <? of_int t)%float = true /\ (c =? 0)%float = false /\
  exists s, choose_scale (of_int t / c)%float = Some s /\
            make_option c t s = Some o.
Proof.
  unfold loop_body, py_div.
  destruct (c <? of_int t)%float; [|discriminate].
  destruct (c =? 0)%float; [discriminate|].
  destruct (choose_scale (of_int t / c)%float) as [s|] eqn:Hs; [|discriminate].
  intros [= Ho]. eauto.
Qed.

Lemma produced_inv (c : float) (o : FpsOption) :
  produced c o -> option_inv c o.
Proof.
  intros (t & Ht & Hb).
  apply loop_body_some in Hb as (_ & _ & s & Hs & Hm).
  apply choose_scale_range in Hs.
  now apply (make_option_inv c t s o Ht Hs).
Qed.

Lemma collect_options_produced (c : float) (ts : list Z) :
  forall acc l, collect_options c ts acc = Ok l ->
  forall o, In o l ->
    In o acc \/ exists t, In t ts /\ loop_body c t = Ok (Some o).
Proof.
  induction ts as [|t ts IH]; intros acc l Hrun o Hin; cbn in Hrun.
  - injection Hrun as <-. auto.
  - destruct (loop_body c t) as [[o'|]|e] eqn:Hb; [| |discriminate].
    + destruct (IH _ _ Hrun o Hin) as [Hacc | (t' & Ht' & Hb')].
      * apply in_app_or in Hacc as [Hacc | [<- | []]]; [auto|].
        right. exists t. split; [now left | exact Hb].
      * right. exists t'. split; [now right | exact Hb'].
    + destruct (IH _ _ Hrun o Hin) as [Hacc | (t' & Ht' & Hb')]; [auto|].
      right. exists t'. split; [now right | exact Hb'].
Qed.

(** The loop raises only through the division, that is only at a zero. *)
Lemma collect_options_total (c : float) (ts : list Z) :
  (c =? 0)%float = false ->
  forall acc, exists l, collect_options c ts acc = Ok l.
Proof.
  intros Hc. induction ts as [|t ts IH]; intros acc; cbn.
  - eauto.
  - unfold loop_body, py_div. rewrite Hc.
    destruct (c <? of_int t)%float; [|apply IH].
    destruct (choose_scale (of_int t / c)%float); [|apply IH].
    destruct (make_option c t _); apply IH.
Qed.

Lemma remove_duplicates_incl (opts : list FpsOption) :
  forall seen uniq o, In o (remove_duplicates opts seen uniq) ->
    In o uniq \/ In o opts.
Proof.
  induction opts as [|x opts IH]; intros seen uniq o Hin; cbn in Hin; [auto|].
  destruct (existsb (key_eqb (key_of x)) seen).
  - destruct (IH _ _ _ Hin); auto with datatypes.
  - destruct (IH _ _ _ Hin) as [Hu | Ho]; [|auto with datatypes].
    apply in_app_or in Hu as [Hu | [<- | []]]; auto with datatypes.
Qed.

Lemma insert_by_actual_In (x o : FpsOption) (l : list FpsOption) :
  In o (insert_by_actual x l) <-> o = x \/ In o l.
Proof.
  induction l as [|y l IH]; cbn.
  - intuition.
  - destruct (actual x <? actual y)%float; cbn; [intuition|].
    rewrite IH. intuition.
Qed.

Lemma sorted_by_actual_In (l : list FpsOption) (o : FpsOption) :
  In o (sorted_by_actual l) <-> In o l.
Proof.
  unfold sorted_by_actual.
  assert (G : forall acc, In o (fold_left (fun a x => insert_by_actual x a) l acc)
                          <-> In o acc \/ In o l).
  { induction l as [|x l IH]; intros acc; cbn; [intuition|].
    rewrite IH, insert_by_actual_In. intuition. }
  rewrite G. cbn. intuition.
Qed.

Lemma get_fps_options_produced (c : float) (l : list FpsOption) :
  get_fps_options c = Ok l -> Forall (produced c) l.
Proof.
  unfold get_fps_options.
  destruct (collect_options c standard_fps []) as [opts|e] eqn:Hc; [|discriminate].
  intros [= <-]. apply List.Forall_forall. intros o Hin.
  apply (proj1 (sorted_by_actual_In _ _)) in Hin.
  apply remove_duplicates_incl in Hin as [[] | Hin].
  destruct (collect_options_produced _ _ _ _ Hc o Hin) as [[] | H]. exact H.
Qed.

Lemma get_fps_options_total (c : float) :
  (c =? 0)%float = false -> exists l, get_fps_options c = Ok l.
Proof.
  intros Hc. unfold get_fps_options.
  destruct (collect_options_total c standard_fps Hc []) as [opts ->]. eauto.
Qed.

(** C1 (as stated, refuted): at 120.25, strictly between 0 and 240, the
    single option returned has actual 240.5, above 240. *)
Lemma fps_options_above_240 :
  (0 <? 120.25)%float = true /\ (120.25 <? 240)%float = true /\
  get_fps_options 120.25 = Ok [mkOption (PyInt 240) 240.5 2 true] /\
  (240.5 <=? 240)%float = false.
Proof. repeat split; vm_compute; reflexivity. Qed.

(** C1 (amended): for [0 < current_fps < 240] the call returns a list, and
    every option in it has actual = current_fps * scale and scale in
    {2, 4, 8}; an option with exact = false has actual <= 240, and an
    option with exact = true has a standard rate as target and actual
    within 1.0 of that target. *)
Theorem get_fps_options_invariant (current_fps : float) :
  (0 <? current_fps)%float = true ->
  (current_fps <? 240)%float = true ->
  exists l, get_fps_options current_fps = Ok l /\
            Forall (option_inv current_fps) l.
Proof.
  intros Hpos _.
  assert (Hnz : (current_fps =? 0)%float = false).
  { rewrite float_eqb_sym. now apply float_ltb_neq. }
  destruct (get_fps_options_total current_fps Hnz) as [l Hl].
  exists l. split; [exact Hl|].
  eapply List.Forall_impl; [|exact (get_fps_options_produced _ _ Hl)].
  apply produced_inv.
Qed.

Lemma get_fps_options_invariant_witness :
  (0 <? 30)%float = true /\ (30 <? 240)%float = true /\
  exists l, get_fps_options 30 = Ok l /\ Forall (option_inv 30) l.
Proof.
  split; [reflexivity|]. split; [reflexivity|].
  apply (get_fps_options_invariant 30); reflexivity.
Defined.

(** ** Ordering of the options by scale *)

Lemma standard_fps_spec (t : Z) :
  In t standard_fps ->
  exists mt et, Prim2SF (of_int t) = S754_finite false mt et /\ et <= -45.
Proof.
  intros Ht. repeat (destruct Ht as [<- | Ht];
    [eexists; eexists; split; [vm_compute; reflexivity | lia] |]).
  destruct Ht.
Qed.

Lemma scale_float_spec (s : Z) :
  s = 2 \/ s = 4 \/ s = 8 ->
  exists k, Prim2SF (of_int s) = S754_finite false pow2_mantissa (k - 52) /\
            1 <= k <= 3 /\ s = 2 ^ k.
Proof.
  intros [-> | [-> | ->]]; [exists 1 | exists 2 | exists 3];
    (split; [vm_compute; reflexivity | lia]).
Qed.

(** A quotient that is negative, a negative zero or a NaN: only the first
    test of the cascade can succeed. *)
Lemma choose_scale_nonpos (x : float) :
  Prim2SF x = S754_zero true \/ (exists m e, Prim2SF x = S754_finite true m e) \/
  Prim2SF x = S754_infinity true \/ Prim2SF x = S754_nan ->
  choose_scale x = Some 2 \/ choose_scale x = None.
Proof.
  intros Hx. unfold choose_scale. rewrite !FloatAxioms.leb_spec.
  replace (Prim2SF 2) with (S754_finite false pow2_mantissa (-51))
    by (vm_compute; reflexivity).
  replace (Prim2SF 4) with (S754_finite false pow2_mantissa (-50))
    by (vm_compute; reflexivity).
  replace (Prim2SF 8) with (S754_finite false pow2_mantissa (-49))
    by (vm_compute; reflexivity).
  destruct Hx as [-> | [(m & e & ->) | [-> | ->]]]; cbn; auto.
Qed.

(** An option at scale 4 or 8 exists only for a positive finite input
    below 240. *)
Lemma produced_large_scale (c : float) (o : FpsOption) :
  produced c o -> 2 < scale o ->
  exists m e, Prim2SF c = S754_finite false m e /\ e <= -45.
Proof.
  intros (t & Ht & Hb) Hs.
  apply loop_body_some in Hb as (Hlt & Hnz & s & Hcs & Hm).
  destruct (make_option_inv c t s o Ht (choose_scale_range _ _ Hcs) Hm) as [_ <-].
  destruct (standard_fps_spec t Ht) as (mt & et & Et & Hle).
  assert (Hneg : forall r, Prim2SF c = r ->
            (exists m e, r = S754_finite true m e) \/ r = S754_infinity true -> False).
  { intros r Hr Hcase. subst r.
    pose proof (div_pos_by_neg (of_int t) c mt et Et Hcase) as Hd.
    destruct (choose_scale_nonpos _ Hd) as [H2 | Hn]; rewrite Hcs in *;
      [injection H2 as H2; lia | discriminate]. }
  rewrite FloatAxioms.ltb_spec, Et in Hlt.
  rewrite FloatAxioms.eqb_spec in Hnz.
  replace (Prim2SF 0) with (S754_zero false) in Hnz by (vm_compute; reflexivity).
  destruct (Prim2SF c) as [sc | sc | | sc m e] eqn:Ec.
  - destruct sc; discriminate Hnz.
  - destruct sc; [|discriminate Hlt]. exfalso. eapply Hneg; eauto.
  - discriminate Hlt.
  - destruct sc; [exfalso; eapply Hneg; eauto|].
    exists m, e. split; [reflexivity|].
    unfold SFltb, SFcompare in Hlt.
    destruct (Z.compare_spec e et); [lia | lia | discriminate].
Qed.

Lemma produced_order (c : float) (o1 o2 : FpsOption) :
  produced c o1 -> produced c o2 -> scale o1 < scale o2 ->
  (actual o1 <? actual o2)%float = true.
Proof.
  intros H1 H2 Hlt.
  destruct (produced_inv _ _ H1) as (A1 & S1 & _).
  destruct (produced_inv _ _ H2) as (A2 & S2 & _).
  destruct (produced_large_scale c o2 H2) as (m & e & Ec & He); [lia|].
  destruct (scale_float_spec _ S1) as (k1 & P1 & K1 & E1).
  destruct (scale_float_spec _ S2) as (k2 & P2 & K2 & E2).
  rewrite A1, A2.
  assert (Hk : k1 < k2).
  { destruct (Z.lt_ge_cases k1 k2) as [|Hge]; [assumption|].
    assert (2 ^ k2 <= 2 ^ k1) by (apply Z.pow_le_mono_r; lia). lia. }
  apply (mul_pow2_lt c _ _ m e k1 k2 Ec P1 P2); unfold emax, prec; lia.
Qed.

(** An appended option passed one of the two tests on [actual_fps], so its
    actual rate is not a NaN. *)
Lemma produced_not_nan (c : float) (o : FpsOption) :
  produced c o -> Prim2SF (actual o) <> S754_nan.
Proof.
  intros H. destruct (produced_inv _ _ H) as (_ & _ & Hex).
  destruct (exact o).
  - destruct Hex as (t & _ & _ & Habs). eapply float_abs_sub_not_nan; eauto.
  - destruct Hex as [_ Hle]. eapply float_leb_not_nan; eauto.
Qed.

Lemma produced_same_scale (c : float) (o1 o2 : FpsOption) :
  produced c o1 -> produced c o2 -> scale o1 = scale o2 -> actual o1 = actual o2.
Proof.
  intros H1 H2 E.
  destruct (produced_inv _ _ H1) as (A1 & _).
  destruct (produced_inv _ _ H2) as (A2 & _).
  rewrite A1, A2, E. reflexivity.
Qed.

(** On the options of one run, comparing actual rates is comparing scales. *)
Lemma produced_ltb (c : float) (o1 o2 : FpsOption) :
  produced c o1 -> produced c o2 ->
  (actual o1 <? actual o2)%float = (scale o1 <? scale o2).
Proof.
  intros H1 H2.
  destruct (Z.ltb_spec (scale o1) (scale o2)) as [Hlt | Hge].
  - now apply (produced_order c).
  - destruct (Z.eq_dec (scale o1) (scale o2)) as [E | N].
    + rewrite (produced_same_scale c o1 o2 H1 H2 E). apply float_ltb_irrefl.
    + apply float_ltb_asym. apply (produced_order c); auto. lia.
Qed.

Lemma produced_key_eqb (c : float) (o1 o2 : FpsOption) :
  produced c o1 -> produced c o2 ->
  key_eqb (key_of o1) (key_of o2) = (scale o1 =? scale o2).
Proof.
  intros H1 H2. unfold key_eqb, key_of. cbn [fst snd].
  destruct (Z.eqb_spec (scale o1) (scale o2)) as [E | N].
  - rewrite (produced_same_scale c o1 o2 H1 H2 E), andb_true_r.
    apply float_eqb_refl. now apply (produced_not_nan c).
  - apply andb_false_r.
Qed.

(** ** De-duplication and sorting *)

Lemma NoDup_snoc {A : Type} (l : list A) (x : A) :
  List.NoDup l -> ~ In x l -> List.NoDup (l ++ [x]).
Proof.
  induction l as [|y l IH]; cbn; intros Hnd Hx.
  - constructor; [intros [] | constructor].
  - inversion Hnd as [|? ? Hy Hl]; subst. constructor.
    + intros Hin. apply in_app_or in Hin as [Hin | [-> | []]]; tauto.
    + apply IH; tauto.
Qed.

Lemma remove_duplicates_scales (c : float) (opts : list FpsOption) :
  Forall (produced c) opts ->
  forall uniq, Forall (produced c) uniq -> List.NoDup (map scale uniq) ->
  let r := remove_duplicates opts (map key_of uniq) uniq in
  Forall (produced c) r /\ List.NoDup (map scale r).
Proof.
  induction 1 as [|x opts Hx Hopts IH]; intros uniq Hu Hnd; cbn; [auto|].
  destruct (existsb (key_eqb (key_of x)) (map key_of uniq)) eqn:Hseen.
  - apply IH; assumption.
  - assert (Hfresh : ~ In (scale x) (map scale uniq)).
    { intros Hin. apply in_map_iff in Hin as (u & Hsu & Hin).
      assert (Ht : existsb (key_eqb (key_of x)) (map key_of uniq) = true);
        [|congruence].
      apply List.existsb_exists. exists (key_of u). split; [now apply in_map|].
      rewrite (produced_key_eqb c x u Hx); [now apply Z.eqb_eq|].
      eapply List.Forall_forall; eauto. }
    replace (map key_of uniq ++ [key_of x]) with (map key_of (uniq ++ [x]))
      by apply List.map_app.
    apply IH.
    + apply List.Forall_app. split; [assumption | now constructor].
    + rewrite List.map_app. cbn. now apply NoDup_snoc.
Qed.

Lemma insert_by_actual_perm (x : FpsOption) (l : list FpsOption) :
  Permutation (insert_by_actual x l) (x :: l).
Proof.
  induction l as [|y l IH]; cbn; [reflexivity|].
  destruct (actual x <? actual y)%float; [reflexivity|].
  rewrite IH. apply perm_swap.
Qed.

Lemma insert_by_actual_sorted (c : float) (x : FpsOption) (l : list FpsOption) :
  produced c x -> Forall (produced c) l ->
  StronglySorted lt_scale l -> ~ In (scale x) (map scale l) ->
  StronglySorted lt_scale (insert_by_actual x l).
Proof.
  intros Hx Hl Hs. induction Hs as [|y l Hs IH Hy]; intros Hfresh; cbn.
  - repeat constructor.
  - inversion Hl as [|? ? Py Pl]; subst.
    rewrite (produced_ltb c x y Hx Py).
    destruct (Z.ltb_spec (scale x) (scale y)) as [Hlt | Hge].
    + constructor; [now constructor|].
      constructor; [exact Hlt|].
      eapply List.Forall_impl; [|exact Hy]. unfold lt_scale. intros; lia.
    + cbn in Hfresh. constructor; [apply IH; tauto|].
      apply List.Forall_forall. intros z Hz.
      apply (proj1 (insert_by_actual_In _ _ _)) in Hz as [-> | Hz].
      * unfold lt_scale. lia.
      * eapply List.Forall_forall in Hy; eauto.
Qed.

Lemma sorted_by_actual_sorted (c : float) (l : list FpsOption) :
  Forall (produced c) l -> List.NoDup (map scale l) ->
  StronglySorted lt_scale (sorted_by_actual l).
Proof.
  unfold sorted_by_actual.
  assert (G : forall acc, Forall (produced c) l -> Forall (produced c) acc ->
            StronglySorted lt_scale acc -> List.NoDup (map scale (acc ++ l)) ->
            StronglySorted lt_scale
              (fold_left (fun a x => insert_by_actual x a) l acc)).
  { induction l as [|x l IH]; intros acc Hl Hacc Hs Hnd; cbn; [exact Hs|].
    inversion Hl as [|? ? Px Pl]; subst.
    assert (Hp : Permutation (map scale (acc ++ x :: l))
                   (scale x :: map scale (acc ++ l))).
    { change (scale x :: map scale (acc ++ l)) with (map scale (x :: acc ++ l)).
      apply Permutation_map. symmetry. apply Permutation_middle. }
    assert (Hnd' : List.NoDup (scale x :: map scale (acc ++ l))).
    { eapply Permutation.Permutation_NoDup; eauto. }
    inversion Hnd' as [|? ? Hx Hrest]; subst.
    apply IH; [assumption | | |].
    - apply List.Forall_forall. intros z Hz.
      apply (proj1 (insert_by_actual_In _ _ _)) in Hz as [-> | Hz]; [assumption|].
      eapply List.Forall_forall in Hacc; eauto.
    - apply (insert_by_actual_sorted c); auto.
      intros Hin. apply Hx. rewrite List.map_app. apply in_or_app. now left.
    - eapply Permutation.Permutation_NoDup; [|exact Hnd'].
      change (scale x :: map scale (acc ++ l)) with (map scale (x :: acc ++ l)).
      apply Permutation_map.
      change (x :: acc ++ l) with ((x :: acc) ++ l).
      apply Permutation_app_tail. symmetry. apply insert_by_actual_perm. }
  intros Hl Hnd. apply G; [assumption | constructor | constructor | exact Hnd].
Qed.

Lemma sorted_lt_scale_facts (c : float) (l : list FpsOption) :
  Forall (produced c) l -> StronglySorted lt_scale l ->
  List.NoDup (map key_of l) /\ ForallOrdPairs distinct_keys l /\
  StronglySorted lt_actual l.
Proof.
  intros Hl Hs. induction Hs as [|a l Hs IH Ha]; cbn.
  - repeat constructor.
  - inversion Hl as [|? ? Pa Pl]; subst.
    destruct (IH Pl) as (N & D & S).
    assert (Hall : Forall (fun b => lt_scale a b /\ produced c b) l).
    { apply List.Forall_forall. intros b Hb. split.
      - eapply List.Forall_forall in Ha; eauto.
      - eapply List.Forall_forall in Pl; eauto. }
    repeat split.
    + constructor; [|exact N].
      intros Hin. apply in_map_iff in Hin as (b & Hk & Hb).
      eapply List.Forall_forall in Hall as [Hlt _]; eauto.
      unfold lt_scale in Hlt. apply (f_equal snd) in Hk. cbn in Hk. lia.
    + constructor; [|exact D].
      eapply List.Forall_impl; [|exact Hall]. intros b [Hlt Pb].
      unfold distinct_keys. rewrite (produced_key_eqb c a b Pa Pb).
      unfold lt_scale in Hlt. apply Z.eqb_neq. lia.
    + constructor; [exact S|].
      eapply List.Forall_impl; [|exact Hall]. intros b [Hlt Pb].
      now apply (produced_order c).
Qed.

(** C6: whenever the call returns a list, no two of its options carry the
    same (actual, scale) pair -- as values and under Python's [==] -- and
    the options are strictly ascending by actual. *)
Theorem get_fps_options_sorted_nodup (current_fps : float) (l : list FpsOption) :
  get_fps_options current_fps = Ok l ->
  List.NoDup (map key_of l) /\ ForallOrdPairs distinct_keys l /\
  StronglySorted lt_actual l.
Proof.
  intros Hrun. pose proof (get_fps_options_produced _ _ Hrun) as Hall.
  apply (sorted_lt_scale_facts current_fps); [exact Hall|].
  unfold get_fps_options in Hrun.
  destruct (collect_options current_fps standard_fps []) as [opts|e] eqn:Hc;
    [|discriminate].
  injection Hrun as <-.
  assert (Hopts : Forall (produced current_fps) opts).
  { apply List.Forall_forall. intros o Hin.
    destruct (collect_options_produced _ _ _ _ Hc o Hin) as [[] | H]. exact H. }
  destruct (remove_duplicates_scales current_fps opts Hopts [])
    as [Hu Hnd]; [constructor | constructor |].
  apply (sorted_by_actual_sorted current_fps); assumption.
Qed.

Lemma get_fps_options_sorted_nodup_witness :
  get_fps_options 30 = Ok [opt 60 2; opt 120 4; opt 240 8] /\
  List.NoDup (map key_of [opt 60 2; opt 120 4; opt 240 8]) /\
  ForallOrdPairs distinct_keys [opt 60 2; opt 120 4; opt 240 8] /\
  StronglySorted lt_actual [opt 60 2; opt 120 4; opt 240 8].
Proof.
  split; [vm_compute; reflexivity|].
  apply (get_fps_options_sorted_nodup 30). vm_compute. reflexivity.
Defined.

(* ------------------------------------------------------------------ *)
(** ** core.py: the monad *)

Import Core.
Local Open Scope py_scope.

Lemma bind_ok {A B : Type} (m : M A) (k : A -> M B) (w w1 : world) (a : A) :
  m w = (Ok a, w1) -> bind m k w = k a w1.
Proof. unfold bind. now intros ->. Qed.

Lemma bind_raise {A B : Type} (m : M A) (k : A -> M B) (w w1 : world) (e : exn) :
  m w = (Raise e, w1) -> bind m k w = (Raise e, w1).
Proof. unfold bind. now intros ->. Qed.

(** ** The missing import *)

Lemma sys_unbound : bool_decide ("sys" ∈ core_globals) = false.
Proof. vm_compute. reflexivity. Qed.

Lemma global_sys_raises (w : world) :
  global core_globals "sys" w = (Raise (NameError "sys"), w).
Proof. unfold global. rewrite sys_unbound. reflexivity. Qed.

Section CoreGlobals.

Variable which : string -> option string.
Variable environ : string -> option path.
Variable home : path.
Variable sys_executable : string.
Variable run_tool : list arg -> world -> Z * string * gset path.
Variable mkdtemp_name : world -> path.
Variable int_log2 : Z -> Z.

Lemma VideoProcessor_init_cases (a b : option string) (w : world) :
  (exists vp, VideoProcessor_init which a b w = (Ok vp, w)) \/
  VideoProcessor_init which a b w = (Raise (RuntimeError FFmpegNotFound), w).
Proof.
  unfold VideoProcessor_init.
  destruct (or_else a (which "ffmpeg")) as [f|],
    (or_else b (which "ffprobe")) as [p|]; try (now right).
  destruct (String.eqb f "" || String.eqb p ""); [now right | left; eauto].
Qed.

Lemma RIFEInterpolator_init_raises (rd md : option path) (w : world) :
  exists e, RIFEInterpolator_init core_globals environ home rd md w = (Raise e, w) /\
    (e = RuntimeError (RifeNotFound (configured_dir environ home rd "UFPS_RIFE_DIR" "RIFE")) \/
     e = RuntimeError (ModelsNotFound (configured_dir environ home md "UFPS_MODELS_DIR" "models")) \/
     e = NameError "sys").
Proof.
  unfold RIFEInterpolator_init, bind, exists_.
  destruct (bool_decide (_ ∈ fs w)); cbn; [|eauto].
  destruct (bool_decide (_ ∈ fs w)); cbn; [|eauto 6].
  rewrite global_sys_raises. eauto 6.
Qed.

Lemma initialize_processors_raises (w : world) :
  exists e, initialize_processors core_globals which environ home w = (Raise e, w) /\
            init_failure e.
Proof.
  unfold initialize_processors, init_failure.
  destruct (VideoProcessor_init_cases None None w) as [[vp Hvp] | Hvp].
  - destruct (RIFEInterpolator_init_raises None None w) as (e & He & Hcase).
    exists e. split.
    + erewrite bind_ok by exact Hvp. now apply bind_raise.
    + destruct Hcase as [-> | [-> | ->]]; eauto 6.
  - exists (RuntimeError FFmpegNotFound).
    split; [apply bind_raise; exact Hvp | auto].
Qed.

Lemma attempt_raises (self : RIFEInterpolator) (sp i o : path) (x : Z) (b : bool)
    (w : world) :
  attempt core_globals sys_executable run_tool self sp i o x b w
    = (Raise (NameError "sys"), w).
Proof. unfold attempt. apply bind_raise, global_sys_raises. Qed.

(** C3: with the globals of [core.py], [RIFEInterpolator()] always raises
    (a RuntimeError for a missing directory, else NameError for [sys]);
    [process_video] always raises, whatever its input and environment --
    with the RuntimeError of a constructor or that NameError -- and has
    then run no external command and reported no progress (no frame is
    extracted); and each invocation attempt of [interpolate] raises
    NameError at [sys.executable] before running anything. *)
Theorem process_video_always_raises :
  (forall rd md w, exists e,
      RIFEInterpolator_init core_globals environ home rd md w = (Raise e, w) /\
      (e = RuntimeError (RifeNotFound (configured_dir environ home rd "UFPS_RIFE_DIR" "RIFE")) \/
       e = RuntimeError (ModelsNotFound (configured_dir environ home md "UFPS_MODELS_DIR" "models")) \/
       e = NameError "sys")) /\
  (forall input_path output_path scale target_fps crf cb w, exists e w',
      process_video core_globals which environ home sys_executable run_tool
        mkdtemp_name int_log2 input_path output_path scale target_fps crf cb w = (Raise e, w') /\
      init_failure e /\ log w' = log w) /\
  (forall self script_path input_dir output_dir exp_value with_model_dir w,
      attempt core_globals sys_executable run_tool self script_path input_dir
        output_dir exp_value with_model_dir w = (Raise (NameError "sys"), w)).
Proof.
  split; [exact RIFEInterpolator_init_raises|]. split; [|exact attempt_raises].
  intros input_path output_path scale target_fps crf cb w.
  unfold process_video, mkdtemp, try_finally, pipeline, bind at 1.
  set (w0 := mkWorld _ _ _ _).
  destruct (initialize_processors_raises w0) as (e & He & Hcase).
  rewrite (bind_raise _ _ _ _ _ He).
  unfold cleanup, bind, exists_, rmtree.
  destruct (bool_decide _); cbn; eauto.
Qed.

End CoreGlobals.

(** ** The pipeline under any global scope *)

Section Pipeline.

Variable globals : list string.
Variable which : string -> option string.
Variable environ : string -> option path.
Variable home : path.
Variable sys_executable : string.
Variable run_tool : list arg -> world -> Z * string * gset path.
Variable mkdtemp_name : world -> path.
Variable int_log2 : Z -> Z.

Lemma pipeline_exits (d i o : path) (scale : Z) (fps : pynum) (crf : Z)
    (cb : option (label -> Z -> M unit)) (w0 : world) :
  pipeline_exit globals which environ home sys_executable run_tool int_log2 d i o scale fps crf cb w0
    (fst (pipeline globals which environ home sys_executable run_tool int_log2 d i o scale fps crf cb w0))
    (snd (pipeline globals which environ home sys_executable run_tool int_log2 d i o scale fps crf cb w0)).
Proof.
  unfold pipeline.
  destruct (initialize_processors globals which environ home w0)
    as [[procs | e] w1] eqn:H0;
    [rewrite (bind_ok _ _ _ _ _ H0) | rewrite (bind_raise _ _ _ _ _ H0);
                                       now apply exit_initialize].
  destruct (step1_extract_frames run_tool cb (fst procs) i (d ++ ["frames"]) w1)
    as [[n1 | e] w2] eqn:H1;
    [rewrite (bind_ok _ _ _ _ _ H1) | rewrite (bind_raise _ _ _ _ _ H1);
                                       now eapply exit_step1; eauto].
  destruct (step2_interpolation globals sys_executable run_tool int_log2 cb (snd procs)
              (d ++ ["frames"]) (d ++ ["interpolated"]) scale w2)
    as [[n2 | e] w3] eqn:H2;
    [rewrite (bind_ok _ _ _ _ _ H2) | rewrite (bind_raise _ _ _ _ _ H2);
                                       now eapply exit_step2; eauto].
  destruct (step3_extract_audio run_tool cb (fst procs) i d w3)
    as [[audio | e] w4] eqn:H3;
    [rewrite (bind_ok _ _ _ _ _ H3) | rewrite (bind_raise _ _ _ _ _ H3);
                                       now eapply exit_step3; eauto].
  destruct (step4_encode run_tool cb (fst procs) (d ++ ["interpolated"]) o fps
              audio crf w4)
    as [[out | e] w5] eqn:H4;
    [rewrite (bind_ok _ _ _ _ _ H4) | rewrite (bind_raise _ _ _ _ _ H4);
                                       now eapply exit_step4; eauto].
  eapply exit_complete; eauto. now destruct (bind _ _ w5).
Qed.

Lemma cleanup_removes (d : path) (w : world) :
  exists w', cleanup d w = (Ok tt, w') /\ (d ∉ fs w') /\
             (d ∈ fs w -> forall q, d `prefix_of` q -> q ∉ fs w') /\
             cwd w' = cwd w /\ log w' = log w.
Proof.
  unfold cleanup, bind, exists_, rmtree.
  destruct (bool_decide (d ∈ fs w)) eqn:Hd; cbn.
  - eexists. split; [reflexivity|]. cbn. split; [|split; [|auto]].
    + rewrite elem_of_filter. intros [Hn _]. now apply Hn.
    + intros _ q Hq. rewrite elem_of_filter. intros [Hn _]. now apply Hn.
  - exists w. split; [reflexivity|]. apply bool_decide_eq_false in Hd.
    split; [exact Hd|]. split; [|auto]. intros Hin. now destruct Hd.
Qed.

(** C5: [process_video] leaves through one of the exits of the stage
    sequence -- at the first stage that raises, with that exception and in
    the world of that raise, or with [True] after the last stage -- and in
    each case the temporary directory created at the start does not exist
    afterwards (nor anything below it, when it was still there at the
    exit), the clean-up changing nothing else that is observed. *)
Theorem process_video_cleanup (input_path output_path : path) (scale : Z)
    (target_fps : pynum) (crf : Z) (cb : option (label -> Z -> M unit))
    (w : world) :
  let temp_dir := mkdtemp_name w in
  let w0 := mkWorld (fs w ∪ {[ temp_dir ]}) (cwd w) (log w) (sys_path w) in
  exists r w1 w',
    pipeline_exit globals which environ home sys_executable run_tool int_log2
      temp_dir input_path output_path scale target_fps crf cb w0 r w1 /\
    process_video globals which environ home sys_executable run_tool mkdtemp_name int_log2
      input_path output_path scale target_fps crf cb w = (r, w') /\
    (temp_dir ∉ fs w') /\
    (temp_dir ∈ fs w1 -> forall q, temp_dir `prefix_of` q -> q ∉ fs w') /\
    cwd w' = cwd w1 /\ log w' = log w1.
Proof.
  intros temp_dir w0.
  pose proof (pipeline_exits temp_dir input_path output_path scale target_fps
                crf cb w0) as Hexit.
  destruct (pipeline globals which environ home sys_executable run_tool int_log2
              temp_dir input_path output_path scale target_fps crf cb w0)
    as [r w1] eqn:Hp. cbn [fst snd] in Hexit.
  destruct (cleanup_removes temp_dir w1) as (w' & Hc & Hgone & Hsub & Hcwd & Hlog).
  exists r, w1, w'. split; [exact Hexit|]. split; [|auto].
  unfold process_video, mkdtemp, try_finally, bind at 1.
  fold temp_dir. fold w0. rewrite Hp, Hc. reflexivity.
Qed.

End Pipeline.

(** ** The interpolator: working directory and invocations *)

Section Interpolator.

Variable globals : list string.
Variable sys_executable : string.
Variable run_tool : list arg -> world -> Z * string * gset path.
Variable int_log2 : Z -> Z.

Lemma attempt_trace (self : RIFEInterpolator) (sp i o : path) (x : Z) (b : bool)
    (w : world) :
(("sys" ∉ globals) /\
   attempt globals sys_executable run_tool self sp i o x b w
     = (Raise (NameError "sys"), w)) \/
  (("sys" ∈ globals) /\
   exists r w1,
     attempt globals sys_executable run_tool self sp i o x b w = (Ok r, w1) /\
     cwd w1 = cwd w /\
     log w1 = log w ++ [EvRun (cwd w) (inference_cmd sys_executable self sp i o x b)]).
Proof.
  unfold attempt, global, bind, subprocess_run, glob_png.
  destruct (decide ("sys" ∈ globals)) as [Hs | Hs].
  - right. split; [exact Hs|].
    rewrite bool_decide_eq_true_2 by exact Hs. cbn.
    destruct (run_tool _ w) as [[rc err] fs']. cbn.
    destruct (rc =? 0); cbn; [destruct (filter _ _); cbn|];
      eexists _, _; (split; [reflexivity|]); cbn; auto.
  - left. split; [exact Hs|].
    rewrite bool_decide_eq_false_2 by exact Hs. reflexivity.
Qed.

Lemma inference_event_here (self : RIFEInterpolator) (script : string)
    (rest : list string) (i o : path) (x : Z) (d : path) (b : bool) :
  inference_event sys_executable self (script :: rest) i o x d
    (EvRun d (inference_cmd sys_executable self (rife_dir self ++ [script]) i o x b)).
Proof. exists script, b. split; [now left | reflexivity]. Qed.

Lemma inference_event_further (self : RIFEInterpolator) (script : string)
    (rest : list string) (i o : path) (x : Z) (d : path) (evs : list event) :
  Forall (inference_event sys_executable self rest i o x d) evs ->
  Forall (inference_event sys_executable self (script :: rest) i o x d) evs.
Proof.
  apply List.Forall_impl. intros ev (s & b & Hin & ->).
  exists s, b. split; [now right | reflexivity].
Qed.

(** The search as a whole: it stays in the directory it starts in, runs
    inference commands on the candidates only, has run one when it returns
    a count, and -- with [sys] bound -- starts with the first candidate
    present, in the variant with the models directory. *)
Lemma try_scripts_trace (self : RIFEInterpolator) (cands : list string)
    (i o : path) (x : Z) (w : world) :
  cwd (snd (try_scripts globals sys_executable run_tool self cands i o x w)) = cwd w /\
  exists evs,
    log (snd (try_scripts globals sys_executable run_tool self cands i o x w))
      = log w ++ evs /\
    Forall (inference_event sys_executable self cands i o x (cwd w)) evs /\
    (forall n, fst (try_scripts globals sys_executable run_tool self cands i o x w)
                 = Ok (Some n) -> evs <> []) /\
    (forall script, "sys" ∈ globals ->
       find (fun s => bool_decide (rife_dir self ++ [s] ∈ fs w)) cands = Some script ->
       exists rest,
         evs = EvRun (cwd w) (inference_cmd sys_executable self
                                (rife_dir self ++ [script]) i o x true) :: rest).
Proof.
  revert w. induction cands as [|script rest IH]; intros w.
  - cbn. split; [reflexivity|]. exists []. rewrite app_nil_r.
    repeat split; try constructor; discriminate.
  - cbn -[attempt inference_event].
    destruct (decide (rife_dir self ++ [script] ∈ fs w)) as [Hin | Hout].
    2:{ rewrite !bool_decide_eq_false_2 by exact Hout.
        cbn -[attempt inference_event].
        destruct (IH w) as (C & evs & L & F & N & Hfirst).
        split; [exact C|]. exists evs. split; [exact L|].
        split; [now apply inference_event_further|]. split; [exact N | exact Hfirst]. }
    rewrite !bool_decide_eq_true_2 by exact Hin.
    cbn -[attempt inference_event].
    set (sp := rife_dir self ++ [script]).
    destruct (attempt_trace self sp i o x true w)
      as [[Hs H1] | (Hs & r1 & w1 & H1 & C1 & L1)].
    { rewrite !(bind_raise _ _ _ _ _ H1). cbn.
      split; [reflexivity|]. exists []. rewrite app_nil_r.
      repeat split; try constructor; try discriminate.
      intros s Hs'. now destruct Hs. }
    assert (E1 : inference_event sys_executable self (script :: rest) i o x (cwd w)
                   (EvRun (cwd w) (inference_cmd sys_executable self sp i o x true)))
      by apply inference_event_here.
    assert (First : forall tail s, "sys" ∈ globals -> Some script = Some s ->
              exists rest0,
                EvRun (cwd w) (inference_cmd sys_executable self sp i o x true) :: tail
                = EvRun (cwd w) (inference_cmd sys_executable self
                                   (rife_dir self ++ [s]) i o x true) :: rest0).
    { intros tail s _ [= <-]. now exists tail. }
    rewrite !(bind_ok _ _ _ _ _ H1).
    destruct r1 as [n1|].
    { cbn. split; [exact C1|]. eexists. split; [exact L1|].
      split; [constructor; [exact E1 | constructor]|].
      split; [discriminate | apply First]. }
    destruct (attempt_trace self sp i o x false w1)
      as [[Hs2 _] | (_ & r2 & w2 & H2 & C2 & L2)]; [now destruct Hs2|].
    rewrite !(bind_ok _ _ _ _ _ H2). rewrite C1 in L2.
    assert (E2 : inference_event sys_executable self (script :: rest) i o x (cwd w)
                   (EvRun (cwd w) (inference_cmd sys_executable self sp i o x false)))
      by apply inference_event_here.
    destruct r2 as [n2|].
    { cbn. split; [congruence|]. eexists. split.
      - rewrite L2, L1, <- app_assoc. reflexivity.
      - split; [repeat constructor; assumption|].
        split; [discriminate | apply First]. }
    destruct (IH w2) as (C3 & evs & L3 & F3 & _ & _).
    rewrite C2, C1 in C3, F3.
    split; [exact C3|].
    exists (EvRun (cwd w) (inference_cmd sys_executable self sp i o x true)
            :: EvRun (cwd w) (inference_cmd sys_executable self sp i o x false) :: evs).
    split; [rewrite L3, L2, L1, <- !app_assoc; reflexivity|].
    split; [constructor; [exact E1|]; constructor; [exact E2|];
            now apply inference_event_further|].
    split; [discriminate | apply First].
Qed.

Lemma inference_event_ran_in (self : RIFEInterpolator) (cands : list string)
    (i o : path) (x : Z) (d : path) (evs : list event) :
  Forall (inference_event sys_executable self cands i o x d) evs ->
  Forall (ran_in d) evs.
Proof.
  apply List.Forall_impl. intros ev (s & b & _ & ->). eexists. reflexivity.
Qed.

(** What [interpolate] leaves: the caller's working directory, and a log
    grown by inference commands started in the tool's root. *)
Lemma interpolate_trace (self : RIFEInterpolator) (input_dir output_dir : path)
    (scale : Z) (w : world) :
  cwd (snd (interpolate globals sys_executable run_tool int_log2 self input_dir
              output_dir scale w)) = cwd w /\
  exists evs,
    log (snd (interpolate globals sys_executable run_tool int_log2 self input_dir
                output_dir scale w)) = log w ++ evs /\
    Forall (inference_event sys_executable self scripts input_dir output_dir
              (int_log2 scale) (rife_dir self)) evs /\
    (forall n, fst (interpolate globals sys_executable run_tool int_log2 self input_dir
                      output_dir scale w) = Ok n -> evs <> []) /\
    (forall script, 0 < scale -> "sys" ∈ globals ->
       first_script self (fs (with_dir output_dir w)) = Some script ->
       exists rest,
         evs = EvRun (rife_dir self)
                 (inference_cmd sys_executable self (rife_dir self ++ [script])
                    input_dir output_dir (int_log2 scale) true) :: rest).
Proof.
  unfold interpolate.
  set (wm := with_dir output_dir w).
  rewrite (bind_ok _ _ w wm tt) by reflexivity.
  unfold exponent_of. destruct (Z.leb_spec scale 0) as [Hs | Hs].
  - rewrite (bind_raise _ _ wm wm ValueError) by reflexivity.
    split; [reflexivity|]. exists []. cbn. rewrite app_nil_r.
    split; [reflexivity|]. split; [constructor|].
    split; [discriminate | intros; lia].
  - rewrite (bind_ok _ _ wm wm (int_log2 scale)) by reflexivity.
    rewrite (bind_ok _ _ wm wm (cwd w)) by reflexivity.
    unfold try_finally.
    set (w1 := mkWorld (fs wm) (rife_dir self) (log wm) (sys_path wm)).
    rewrite (bind_ok _ _ wm w1 tt) by reflexivity.
    destruct (try_scripts_trace self scripts input_dir output_dir (int_log2 scale) w1)
      as (C & evs & L & F & N & Hfirst).
    unfold bind.
    destruct (try_scripts _ _ _ _ _ _ _ _ w1) as [[[n|]|e] w2];
      cbn -[scripts inference_event] in C, L, F, N, Hfirst |- *;
      (split; [reflexivity|]); exists evs; (split; [exact L|]);
      (split; [exact F|]); (split; [|intros script _; apply Hfirst]);
      try discriminate.
    intros _ _. now apply (N n).
Qed.

(** C10: [interpolate] ends, by return or by raise, in the working
    directory it was called in, and every external command it ran was
    started in the tool's root [rife_dir].  The commands are there when the
    search runs at all: a call that returns has run one, and with [sys]
    bound, a positive multiplier and a candidate script present, the first
    command of the call is the inference command on the first such script,
    started in [rife_dir]. *)
Theorem interpolate_restores_cwd (self : RIFEInterpolator) (input_dir output_dir : path)
    (scale : Z) (w : world) :
  let run := interpolate globals sys_executable run_tool int_log2 self input_dir
               output_dir scale w in
  let w' := snd run in
  cwd w' = cwd w /\
  exists evs, log w' = log w ++ evs /\ Forall (ran_in (rife_dir self)) evs /\
    (forall n, fst run = Ok n -> evs <> []) /\
    (forall script, 0 < scale -> "sys" ∈ globals ->
       first_script self (fs (with_dir output_dir w)) = Some script ->
       exists rest,
         evs = EvRun (rife_dir self)
                 (inference_cmd sys_executable self (rife_dir self ++ [script])
                    input_dir output_dir (int_log2 scale) true) :: rest).
Proof.
  cbv zeta.
  destruct (interpolate_trace self input_dir output_dir scale w)
    as (C & evs & L & F & N & Hfirst).
  split; [exact C|]. exists evs. split; [exact L|].
  split; [|split; [exact N | exact Hfirst]].
  revert F. apply inference_event_ran_in.
Qed.

End Interpolator.

Lemma interpolate_restores_cwd_witness :
  cwd demo_world <> rife_dir demo_rife /\
  cwd (snd (interpolate ("sys" :: core_globals) "python3" good_tool sample_log2
              demo_rife ["in"] ["out"] 2 demo_world)) = cwd demo_world /\
  exists rest,
    log (snd (interpolate ("sys" :: core_globals) "python3" good_tool sample_log2
                demo_rife ["in"] ["out"] 2 demo_world))
    = EvRun ["opt"; "RIFE"]
        (inference_cmd "python3" demo_rife ["opt"; "RIFE"; "inference_video.py"]
           ["in"] ["out"] 1 true) :: rest.
Proof.
  split; [discriminate|].
  destruct (interpolate_restores_cwd ("sys" :: core_globals) "python3" good_tool
              sample_log2 demo_rife ["in"] ["out"] 2 demo_world)
    as (C & evs & L & _ & _ & Hfirst).
  split; [exact C|].
  destruct (Hfirst "inference_video.py") as [rest ->];
    [lia | now constructor | vm_compute; reflexivity |].
  exists rest. exact L.
Defined.

(** ** Audio is optional *)

Section Audio.

Variable run_tool : list arg -> world -> Z * string * gset path.

Lemma extract_audio_returns (self : VideoProcessor) (video out : path) (w : world) :
  exists w', extract_audio run_tool self video out w
             = (Ok (if bool_decide (out ∈ fs w') then Some out else None), w').
Proof.
  unfold extract_audio, bind, subprocess_run, exists_.
  destruct (run_tool _ w) as [[rc err] fs']. cbn.
  eexists (mkWorld fs' _ _ _). reflexivity.
Qed.

Lemma encode_video_silent (self : VideoProcessor) (frames out : path) (fps : pynum)
    (crf : Z) (w : world) :
  encode_video run_tool self frames out fps None crf w =
    let '(rc, err, fs') := run_tool (encode_cmd_silent self frames out fps crf) w in
    (if rc =? 0 then Ok out else Raise (RuntimeError (EncodeFailed err)),
     mkWorld fs' (cwd w) (log w ++ [EvRun (cwd w) (encode_cmd_silent self frames out fps crf)]) (sys_path w)).
Proof.
  unfold encode_video, bind, subprocess_run, ret.
  destruct (run_tool _ w) as [[rc err] fs']. cbn.
  destruct (rc =? 0); reflexivity.
Qed.

(** C8: [extract_audio] returns on every exit status of the tool -- the
    output path if that path exists afterwards, [None] otherwise; the
    encoder called without audio runs the command line whose arguments
    have no audio codec option and fails only on its own exit status; and when step 3 of the
    pipeline yields [None], step 4 is that encoding without audio. *)
Theorem extract_audio_optional :
  (forall self video out w, exists w',
      extract_audio run_tool self video out w
        = (Ok (if bool_decide (out ∈ fs w') then Some out else None), w')) /\
  (forall self frames out fps crf w,
      encode_video run_tool self frames out fps None crf w =
        let '(rc, err, fs') := run_tool (encode_cmd_silent self frames out fps crf) w in
        (if rc =? 0 then Ok out else Raise (RuntimeError (EncodeFailed err)),
         mkWorld fs' (cwd w)
           (log w ++ [EvRun (cwd w) (encode_cmd_silent self frames out fps crf)])
           (sys_path w))) /\
  (forall self frames out fps crf,
      ~ In (Str "-c:a") (tl (encode_cmd_silent self frames out fps crf))) /\
  (forall cb vp input temp_dir interp out fps crf w w',
      step3_extract_audio run_tool cb vp input temp_dir w = (Ok None, w') ->
      (audio <- step3_extract_audio run_tool cb vp input temp_dir ;;
       step4_encode run_tool cb vp interp out fps audio crf) w
      = step4_encode run_tool cb vp interp out fps None crf w').
Proof.
  split; [exact extract_audio_returns|]. split; [exact encode_video_silent|].
  split.
  - intros self frames out fps crf Hin. cbn in Hin.
    repeat (destruct Hin as [Hin | Hin]; [discriminate Hin|]). exact Hin.
  - intros cb vp input temp_dir interp out fps crf w w' H.
    now rewrite (bind_ok _ _ _ _ _ H).
Qed.

End Audio.

Lemma extract_audio_optional_witness :
  step3_extract_audio failing_tool None demo_processor ["in.mp4"] ["tmp"] demo_world
    = (Ok None, snd (step3_extract_audio failing_tool None demo_processor
                       ["in.mp4"] ["tmp"] demo_world)) /\
  fst ((audio <- step3_extract_audio failing_tool None demo_processor ["in.mp4"] ["tmp"] ;;
        step4_encode failing_tool None demo_processor ["tmp"; "interpolated"]
          ["out.mp4"] (PyInt 60) audio 18) demo_world)
  = Raise (RuntimeError (EncodeFailed "Output file does not contain any stream")).
Proof.
  assert (H : step3_extract_audio failing_tool None demo_processor ["in.mp4"] ["tmp"]
                demo_world
              = (Ok None, snd (step3_extract_audio failing_tool None demo_processor
                                 ["in.mp4"] ["tmp"] demo_world))).
  { vm_compute. reflexivity. }
  split; [exact H|].
  rewrite (proj2 (proj2 (proj2 (extract_audio_optional failing_tool)))
             None demo_processor ["in.mp4"] ["tmp"] ["tmp"; "interpolated"]
             ["out.mp4"] (PyInt 60) 18 demo_world _ H).
  vm_compute. reflexivity.
Defined.

(* ------------------------------------------------------------------ *)
(** ** The frame rate read by [get_video_info] *)

Import Probe.

Lemma split_no_separator (c : ascii) (s : string) :
  contains c s = false -> split c s = [s].
Proof.
  induction s as [|a s IH]; cbn; [reflexivity|].
  destruct (Ascii.eqb a c); cbn; [discriminate|].
  intros H. now rewrite IH.
Qed.

Lemma split_two (c : ascii) (a b : string) :
  contains c a = false -> contains c b = false ->
  split c (String.append a (String c b)) = [a; b].
Proof.
  intros Ha Hb. induction a as [|x a IH].
  - change (split c (String c b) = [EmptyString; b]). cbn.
    rewrite Ascii.eqb_refl. now rewrite split_no_separator.
  - change (split c (String x (String.append a (String c b))) = [String x a; b]).
    cbn in Ha |- *. destruct (Ascii.eqb x c); cbn in Ha; [discriminate|].
    now rewrite IH.
Qed.

Lemma contains_separator (c : ascii) (a b : string) :
  contains c (String.append a (String c b)) = true.
Proof.
  induction a as [|x a IH].
  - change (contains c (String c b) = true). cbn. now rewrite Ascii.eqb_refl.
  - change (contains c (String x (String.append a (String c b))) = true).
    cbn. rewrite IH. apply orb_true_r.
Qed.

(** The selected video stream is a stream of kind video, hence not empty. *)
Lemma select_streams_video (streams : list stream) :
  forall v0 a0 v a,
    select_streams streams v0 a0 = Ok (Some v, a) ->
    (forall st, v0 = Some st -> st <> ∅) ->
    v <> ∅.
Proof.
  induction streams as [|st rest IH]; intros v0 a0 v a; cbn.
  - intros [= -> _] H. now apply H.
  - destruct (st !! "codec_type") as [kind|] eqn:Hk; [|discriminate].
    destruct (is_kind "video" kind && falsy v0).
    + intros Hrun _. apply (IH _ _ _ _ Hrun).
      intros st' [= <-] Hempty. rewrite Hempty in Hk.
      unfold stream in Hk. rewrite lookup_empty in Hk. discriminate Hk.
    + destruct (is_kind "audio" kind && falsy a0); intros Hrun H;
        apply (IH _ _ _ _ Hrun H).
Qed.

(** C9 (as stated, refuted): for the video stream with rate ["0/1"] the
    frame rate computed is 0.0, not greater than 0. *)
Lemma frame_rate_zero :
  get_video_fps decimal_float [video_stream_with "0/1"] = Ok 0%float /\
  (0 <? 0)%float = false.
Proof. split; vm_compute; reflexivity. Qed.

(** C9 (amended): when a video stream is found, the frame rate is computed
    from its ['r_frame_rate'] entry (["30/1"] when absent): a string without
    ['/'] is parsed directly; a string ["num/den"] gives the quotient of
    the two parsed numbers when [den != 0], and 30.0 when [den == 0]. *)
Theorem get_video_fps_rule (py_float : string -> result float)
    (streams : list stream) (video : stream) (audio : option stream) :
  select_streams streams None None = Ok (Some video, audio) ->
  let field := default (JString "30/1") (video !! "r_frame_rate") in
  get_video_fps py_float streams = frame_rate py_float field /\
  (forall s, field = JString s -> contains "/" s = false ->
     frame_rate py_float field = py_float s) /\
  (forall a b num den,
     field = JString (String.append a (String "/" b)) ->
     contains "/" a = false -> contains "/" b = false ->
     py_float a = Ok num -> py_float b = Ok den ->
     frame_rate py_float field
       = Ok (if (den =? 0)%float then 30%float else (num / den)%float)).
Proof.
  intros Hsel field. repeat split.
  - unfold get_video_fps. rewrite Hsel.
    assert (Hne : video <> ∅).
    { apply (select_streams_video _ _ _ _ _ Hsel). discriminate. }
    now rewrite bool_decide_eq_false_2.
  - intros s -> Hs. cbn. now rewrite Hs.
  - intros a b num den -> Ha Hb Hnum Hden. cbn [frame_rate].
    rewrite contains_separator, split_two, Hnum, Hden by assumption.
    now destruct (den =? 0)%float.
Qed.

Lemma get_video_fps_rule_witness :
  select_streams [video_stream_with "30000/1001"] None None
    = Ok (Some (video_stream_with "30000/1001"), None) /\
  frame_rate decimal_float (JString "30000/1001") = Ok (30000 / 1001)%float.
Proof.
  assert (Hsel : select_streams [video_stream_with "30000/1001"] None None
                 = Ok (Some (video_stream_with "30000/1001"), None)).
  { vm_compute. reflexivity. }
  split; [exact Hsel|].
  destruct (get_video_fps_rule decimal_float _ _ _ Hsel) as (_ & _ & Hrat).
  apply (Hrat "30000" "1001" 30000%float 1001%float); vm_compute; reflexivity.
Defined.

(* ------------------------------------------------------------------ *)
(** ** The fallback search and the unbound [sys] *)

Section Fallback.

Variable sys_executable : string.
Variable run_tool : list arg -> world -> Z * string * gset path.
Variable int_log2 : Z -> Z.

(** With the globals of [core.py] the candidate loop stops at the first
    script that exists, by the NameError of its first invocation attempt,
    and runs to its end only when no candidate exists. *)
Lemma try_scripts_core (self : RIFEInterpolator) (cands : list string)
    (i o : path) (x : Z) (w : world) :
  try_scripts core_globals sys_executable run_tool self cands i o x w = (Ok None, w) \/
  try_scripts core_globals sys_executable run_tool self cands i o x w
    = (Raise (NameError "sys"), w).
Proof.
  induction cands as [|script rest IH]; cbn -[attempt]; [now left|].
  destruct (bool_decide _); cbn -[attempt]; [|exact IH].
  right. apply bind_raise, attempt_raises.
Qed.

(** So [interpolate] never returns a frame count and never runs a command. *)
Lemma interpolate_core_never_returns (self : RIFEInterpolator) (i o : path)
    (scale : Z) (w : world) :
  exists e w', interpolate core_globals sys_executable run_tool int_log2 self i o scale w
               = (Raise e, w') /\ log w' = log w.
Proof.
  unfold interpolate.
  set (wm := mkWorld (fs w ∪ list_to_set (ancestors o)) (cwd w) (log w) (sys_path w)).
  rewrite (bind_ok _ _ w wm tt) by reflexivity.
  unfold exponent_of. destruct (scale <=? 0).
  - rewrite (bind_raise _ _ wm wm ValueError) by reflexivity. eauto.
  - rewrite (bind_ok _ _ wm wm (int_log2 scale)) by reflexivity.
    rewrite (bind_ok _ _ wm wm (cwd w)) by reflexivity.
    unfold try_finally.
    set (w1 := mkWorld (fs wm) (rife_dir self) (log wm) (sys_path wm)).
    rewrite (bind_ok _ _ wm w1 tt) by reflexivity.
    unfold bind.
    destruct (try_scripts_core self scripts i o (int_log2 scale) w1) as [-> | ->];
      cbn; eauto.
Qed.

End Fallback.

(** With [sys] bound the same loop is the search the specification
    describes: an attempt never raises, and the loop returns at an attempt
    that exited 0 and left output frames, with their number. *)
Section FallbackWithSys.

Variable globals : list string.
Variable sys_executable : string.
Variable run_tool : list arg -> world -> Z * string * gset path.
Variable int_log2 : Z -> Z.
Hypothesis sys_bound : bool_decide ("sys" ∈ globals) = true.

Lemma attempt_with_sys (self : RIFEInterpolator) (sp i o : path) (x : Z) (b : bool)
    (w : world) :
  let cmd := inference_cmd sys_executable self sp i o x b in
  let '(rc, err, fs') := run_tool cmd w in
  let w' := mkWorld fs' (cwd w) (log w ++ [EvRun (cwd w) cmd]) (sys_path w) in
  let frames := filter (fun q => is_png_child o q = true) (elements fs') in
  attempt globals sys_executable run_tool self sp i o x b w =
    (Ok (if (rc =? 0) && negb (Nat.eqb (length frames) 0)
         then Some (Z.of_nat (length frames)) else None), w').
Proof.
  cbv zeta. unfold attempt, global, bind, subprocess_run, glob_png.
  rewrite sys_bound. cbn.
  destruct (run_tool _ w) as [[rc err] fs']. cbn.
  destruct (rc =? 0); cbn; [|reflexivity].
  destruct (filter _ (elements fs')); reflexivity.
Qed.

Lemma attempt_with_sys_result (self : RIFEInterpolator) (sp i o : path) (x : Z)
    (b : bool) (w : world) :
  exists r w', attempt globals sys_executable run_tool self sp i o x b w = (Ok r, w') /\
    match r with
    | Some n =>
        0 < n /\
        n = Z.of_nat (length (filter (fun q => is_png_child o q = true) (elements (fs w')))) /\
        fst (fst (run_tool (inference_cmd sys_executable self sp i o x b) w)) = 0
    | None => True
    end.
Proof.
  pose proof (attempt_with_sys self sp i o x b w) as H. cbv zeta in H.
  destruct (run_tool _ w) as [[rc err] fs'] eqn:Hrun. rewrite H.
  eexists. eexists. split; [reflexivity|]. cbn.
  destruct (rc =? 0) eqn:Hrc; cbn; [|exact I].
  destruct (Nat.eqb_spec (length (filter (fun q => is_png_child o q = true) (elements fs'))) 0);
    cbn; [exact I|].
  split; [lia|]. split; [reflexivity|]. now apply Z.eqb_eq.
Qed.

Lemma try_scripts_with_sys (self : RIFEInterpolator) (cands : list string)
    (i o : path) (x : Z) (w : world) :
  exists r w', try_scripts globals sys_executable run_tool self cands i o x w = (Ok r, w') /\
    match r with
    | Some n =>
        0 < n /\
        n = Z.of_nat (length (filter (fun q => is_png_child o q = true) (elements (fs w'))))
    | None => True
    end.
Proof.
  revert w. induction cands as [|script rest IH]; intros w; cbn -[attempt].
  - exists None, w. auto.
  - match goal with |- context [negb ?b] => destruct b end; cbn -[attempt];
      [|apply IH].
    destruct (attempt_with_sys_result self (rife_dir self ++ [script]) i o x true w)
      as (r1 & w1 & H1 & P1).
    rewrite (bind_ok _ _ _ _ _ H1).
    destruct r1 as [n1|]; [exists (Some n1), w1; tauto|].
    destruct (attempt_with_sys_result self (rife_dir self ++ [script]) i o x false w1)
      as (r2 & w2 & H2 & P2).
    rewrite (bind_ok _ _ _ _ _ H2).
    destruct r2 as [n2|]; [exists (Some n2), w2; tauto | apply IH].
Qed.

(** The call then returns a positive frame count or raises the
    RuntimeError of the exhausted search (or ValueError for a multiplier
    that has no logarithm). *)
Lemma interpolate_with_sys (self : RIFEInterpolator) (i o : path) (scale : Z)
    (w : world) :
  let r := fst (interpolate globals sys_executable run_tool int_log2 self i o scale w) in
  (exists n, r = Ok n /\ 0 < n) \/
  r = Raise (RuntimeError NoCompatibleScript) \/
  (r = Raise ValueError /\ scale <= 0).
Proof.
  cbv zeta. unfold interpolate.
  set (wm := mkWorld (fs w ∪ list_to_set (ancestors o)) (cwd w) (log w) (sys_path w)).
  rewrite (bind_ok _ _ w wm tt) by reflexivity.
  unfold exponent_of. destruct (Z.leb_spec scale 0).
  - rewrite (bind_raise _ _ wm wm ValueError) by reflexivity. auto.
  - rewrite (bind_ok _ _ wm wm (int_log2 scale)) by reflexivity.
    rewrite (bind_ok _ _ wm wm (cwd w)) by reflexivity.
    unfold try_finally.
    set (w1 := mkWorld (fs wm) (rife_dir self) (log wm) (sys_path wm)).
    rewrite (bind_ok _ _ wm w1 tt) by reflexivity.
    destruct (try_scripts_with_sys self scripts i o (int_log2 scale) w1)
      as (r & w2 & Hr & P).
    rewrite (bind_ok _ _ _ _ _ Hr).
    destruct r as [n|]; cbn; [left; exists n; tauto | auto].
Qed.

End FallbackWithSys.

(** C4: in the sample installation the first candidate exists and the
    tool, if run, exits 0 and leaves a frame; [interpolate] nevertheless
    raises NameError for [sys] and runs nothing, where the same code with
    [sys] bound returns the count 1 from the first candidate. *)
Theorem interpolate_sample_NameError :
  bool_decide (rife_dir demo_rife ++ ["inference_video.py"] ∈ fs demo_world) = true /\
  fst (interpolate core_globals "python3" good_tool sample_log2 demo_rife ["in"] ["out"] 2 demo_world)
    = Raise (NameError "sys") /\
  log (snd (interpolate core_globals "python3" good_tool sample_log2 demo_rife ["in"] ["out"] 2
              demo_world)) = [] /\
  fst (interpolate ("sys" :: core_globals) "python3" good_tool sample_log2 demo_rife ["in"] ["out"] 2
         demo_world) = Ok 1.
Proof. repeat split; vm_compute; reflexivity. Qed.

(* ------------------------------------------------------------------ *)
(** * Further properties *)

(** ** More binary64 order facts *)

Lemma SFcompare_lt_le_trans (a b c : spec_float) :
  SFltb a b = true -> SFleb b c = true -> SFltb a c = true.
Proof.
  unfold SFltb, SFleb.
  destruct a as [sa | sa | | sa ma ea], b as [sb | sb | | sb mb eb],
    c as [sc | sc | | sc mc ec];
    try destruct sa; try destruct sb; try destruct sc; cbn;
    try reflexivity; try discriminate;
    change (Pos.compare_cont Eq ?p ?q) with (Pos.compare p q);
    destruct (Z.compare_spec ea eb); try discriminate;
    destruct (Z.compare_spec eb ec); try discriminate;
    destruct (Z.compare_spec ea ec); try reflexivity; try lia; subst;
    destruct (Pos.compare_spec ma mb); try discriminate;
    destruct (Pos.compare_spec mb mc); try discriminate;
    destruct (Pos.compare_spec ma mc); try reflexivity; try lia; intros; lia.
Qed.

Lemma float_ltb_leb_trans (a b c : float) :
  (a <? b)%float = true -> (b <=? c)%float = true -> (a <? c)%float = true.
Proof.
  rewrite !FloatAxioms.ltb_spec, FloatAxioms.leb_spec.
  apply SFcompare_lt_le_trans.
Qed.

Lemma standard_fps_le_240 (t : Z) :
  In t standard_fps -> (of_int t <=? 240)%float = true.
Proof.
  intros Ht. repeat (destruct Ht as [<- | Ht]; [vm_compute; reflexivity|]).
  destruct Ht.
Qed.

(** ** get_fps_options: where it raises, where it returns nothing *)

Lemma float_eqb_zero (c : float) :
  (c =? 0)%float = true -> exists s, Prim2SF c = S754_zero s.
Proof.
  rewrite FloatAxioms.eqb_spec.
  replace (Prim2SF 0) with (S754_zero false) by (vm_compute; reflexivity).
  destruct (Prim2SF c) as [s | s | | s m e]; try destruct s; cbn;
    try discriminate; eauto.
Qed.

Lemma loop_body_zero (c : float) :
  (c =? 0)%float = true -> loop_body c 24 = Raise ZeroDivisionError.
Proof.
  intros Hz. unfold loop_body, py_div. rewrite Hz.
  destruct (float_eqb_zero c Hz) as [s Hs].
  assert (Hlt : (c <? of_int 24)%float = true).
  { rewrite FloatAxioms.ltb_spec, Hs.
    replace (Prim2SF (of_int 24)) with (S754_finite false 6755399441055744 (-48))
      by (vm_compute; reflexivity).
    reflexivity. }
  now rewrite Hlt.
Qed.

(** X1: the call raises exactly at a zero input, and then
    [ZeroDivisionError]; at every other float it returns a list. *)
Theorem get_fps_options_raises_iff_zero (current_fps : float) :
  if (current_fps =? 0)%float
  then get_fps_options current_fps = Raise ZeroDivisionError
  else exists l, get_fps_options current_fps = Ok l.
Proof.
  destruct (current_fps =? 0)%float eqn:Hz.
  - unfold get_fps_options, standard_fps. cbn [collect_options].
    now rewrite (loop_body_zero _ Hz).
  - now apply get_fps_options_total.
Qed.

Lemma collect_options_none (c : float) (ts : list Z) (acc : list FpsOption) :
  (forall t, In t ts -> (c <? of_int t)%float = false) ->
  collect_options c ts acc = Ok acc.
Proof.
  induction ts as [|t ts IH]; intros H; cbn; [reflexivity|].
  unfold loop_body. rewrite (H t) by now left.
  apply IH. intros t' Ht'. apply H. now right.
Qed.

(** X2: an input that is not below 240 -- 240 or more, infinite, or a
    NaN -- yields the empty list, without any division. *)
Theorem get_fps_options_none_from_240 (current_fps : float) :
  (current_fps <? 240)%float = false ->
  get_fps_options current_fps = Ok [].
Proof.
  intros H. unfold get_fps_options.
  rewrite collect_options_none; [reflexivity|].
  intros t Ht. destruct (current_fps <? of_int t)%float eqn:Hlt; [|reflexivity].
  rewrite (float_ltb_leb_trans _ _ _ Hlt (standard_fps_le_240 t Ht)) in H.
  discriminate H.
Qed.

Lemma get_fps_options_none_from_240_witness :
  (240 <? 240)%float = false /\ get_fps_options 240 = Ok [] /\
  (PrimFloat.nan <? 240)%float = false /\ get_fps_options PrimFloat.nan = Ok [].
Proof.
  split; [reflexivity|]. split; [apply (get_fps_options_none_from_240 240); reflexivity|].
  split; [reflexivity|]. apply (get_fps_options_none_from_240 PrimFloat.nan); reflexivity.
Defined.

(** ** get_fps_options: the shape of the list *)

Lemma get_fps_options_scale_sorted (c : float) (l : list FpsOption) :
  get_fps_options c = Ok l -> StronglySorted lt_scale l.
Proof.
  intros Hrun. unfold get_fps_options in Hrun.
  destruct (collect_options c standard_fps []) as [opts|e] eqn:Hc; [|discriminate].
  injection Hrun as <-.
  assert (Hopts : Forall (produced c) opts).
  { apply List.Forall_forall. intros o Hin.
    destruct (collect_options_produced _ _ _ _ Hc o Hin) as [[] | H]. exact H. }
  destruct (remove_duplicates_scales c opts Hopts []) as [Hu Hnd];
    [constructor | constructor |].
  apply (sorted_by_actual_sorted c); assumption.
Qed.

Lemma scale_sorted_length (c : float) (l : list FpsOption) :
  Forall (produced c) l -> StronglySorted lt_scale l ->
  forall lo, Forall (fun o => lo <= scale o) l ->
  (length l <= if (lo <=? 2)%Z then 3 else if (lo <=? 4)%Z then 2
               else if (lo <=? 8)%Z then 1 else 0)%nat.
Proof.
  intros Hp Hs. induction Hs as [|a l Hs IH Ha]; intros lo Hlo.
  - cbn. lia.
  - inversion Hp as [|? ? Pa Pl]; subst. inversion Hlo as [|? ? La Ll]; subst.
    destruct (produced_inv _ _ Pa) as (_ & Sa & _).
    assert (Hnext : Forall (fun o => scale a + 1 <= scale o) l).
    { eapply List.Forall_impl; [|exact Ha]. unfold lt_scale. intros; lia. }
    specialize (IH Pl (scale a + 1) Hnext). cbn [length].
    destruct Sa as [Ea | [Ea | Ea]]; rewrite Ea in IH, La;
      repeat match goal with
             | H : context [(?x <=? ?y)%Z] |- _ => destruct (Z.leb_spec x y); try lia
             end;
      repeat match goal with
             | |- context [(?x <=? ?y)%Z] => destruct (Z.leb_spec x y); try lia
             end.
Qed.

(** X3: a returned list has at most three options, and they come in
    strictly ascending order of scale: sorting by actual rate puts the
    multipliers 2, 4, 8 in order. *)
Theorem get_fps_options_at_most_three (current_fps : float) (l : list FpsOption) :
  get_fps_options current_fps = Ok l ->
  StronglySorted lt_scale l /\ (length l <= 3)%nat.
Proof.
  intros Hrun. pose proof (get_fps_options_scale_sorted _ _ Hrun) as Hs.
  split; [exact Hs|].
  pose proof (get_fps_options_produced _ _ Hrun) as Hp.
  apply (scale_sorted_length current_fps l Hp Hs 2).
  eapply List.Forall_impl; [|exact Hp]. intros o Ho.
  destruct (produced_inv _ _ Ho) as (_ & So & _). lia.
Qed.

Lemma get_fps_options_at_most_three_witness :
  get_fps_options 12 = Ok [mkOption (PyInt 24) 24 2 true; opt 48 4; opt 96 8] /\
  StronglySorted lt_scale [mkOption (PyInt 24) 24 2 true; opt 48 4; opt 96 8] /\
  (length [mkOption (PyInt 24) 24 2 true; opt 48 4; opt 96 8] <= 3)%nat.
Proof.
  split; [vm_compute; reflexivity|].
  apply (get_fps_options_at_most_three 12). vm_compute. reflexivity.
Defined.

(** ** get_fps_options: the sign of the input *)

Lemma mul_pow2_gt (c p : float) (m : positive) (e k : Z) :
  Prim2SF c = S754_finite false m e ->
  Prim2SF p = S754_finite false pow2_mantissa (k - 52) ->
  1 <= k <= 52 -> e + k <= emax - prec ->
  (c <? c * p)%float = true.
Proof.
  intros Hc Hp Hk Hmax.
  destruct (mul_pow2 c p m e k Hc Hp) as [E B]; [lia | lia |].
  cbv zeta in E, B.
  rewrite FloatAxioms.ltb_spec, E, Hc. unfold SFltb, SFcompare.
  set (F := fexp prec emax (Zpos (digits2_pos m) + e + k)) in *.
  destruct (Z.compare_spec e F) as [Heq | Hlt | Hgt]; [| reflexivity | lia].
  change (Pos.compare_cont Eq ?a ?b) with (Pos.compare a b).
  rewrite (proj2 (Pos.compare_lt_iff _ _)); [reflexivity|].
  apply (iter_xO_lt 0). lia.
Qed.

(** An option of a positive input: the input is finite and below 240. *)
Lemma produced_positive_input (c : float) (o : FpsOption) :
  produced c o -> (0 <? c)%float = true ->
  exists m e, Prim2SF c = S754_finite false m e /\ e <= -45.
Proof.
  intros (t & Ht & Hb) Hpos.
  apply loop_body_some in Hb as (Hlt & _).
  destruct (standard_fps_spec t Ht) as (mt & et & Et & Hle).
  rewrite FloatAxioms.ltb_spec, Et in Hlt.
  rewrite FloatAxioms.ltb_spec in Hpos.
  replace (Prim2SF 0) with (S754_zero false) in Hpos by (vm_compute; reflexivity).
  destruct (Prim2SF c) as [sc | sc | | sc m e]; try destruct sc;
    try discriminate Hpos; try discriminate Hlt.
  exists m, e. split; [reflexivity|].
  unfold SFltb, SFcompare in Hlt.
  destruct (Z.compare_spec e et); [lia | lia | discriminate].
Qed.

(** X4: for a positive input every option is an upgrade: its actual rate
    is strictly above the input rate. *)
Theorem get_fps_options_upgrades (current_fps : float) (l : list FpsOption) :
  (0 <? current_fps)%float = true ->
  get_fps_options current_fps = Ok l ->
  Forall (fun o => (current_fps <? actual o)%float = true) l.
Proof.
  intros Hpos Hrun.
  eapply List.Forall_impl; [|exact (get_fps_options_produced _ _ Hrun)].
  intros o Ho.
  destruct (produced_positive_input _ _ Ho Hpos) as (m & e & Ec & He).
  destruct (produced_inv _ _ Ho) as (A & S & _).
  destruct (scale_float_spec _ S) as (k & P & K & _).
  rewrite A. apply (mul_pow2_gt current_fps _ m e k Ec P); unfold emax, prec; lia.
Qed.

Lemma get_fps_options_upgrades_witness :
  (0 <? fps_29_97)%float = true /\
  Forall (fun o => (fps_29_97 <? actual o)%float = true)
    [opt (fps_29_97 * 2) 2; opt (fps_29_97 * 4) 4; opt (fps_29_97 * 8) 8].
Proof.
  split; [reflexivity|].
  apply (get_fps_options_upgrades fps_29_97); vm_compute; reflexivity.
Defined.

(** X5: a negative input is not rejected: the call returns at most one
    option, at scale 2 (twice a negative rate). *)
Theorem get_fps_options_negative (current_fps : float) (l : list FpsOption) :
  (current_fps <? 0)%float = true ->
  get_fps_options current_fps = Ok l ->
  (length l <= 1)%nat /\ Forall (fun o => scale o = 2) l.
Proof.
  intros Hneg Hrun.
  pose proof (get_fps_options_produced _ _ Hrun) as Hp.
  assert (H2 : Forall (fun o => scale o = 2) l).
  { eapply List.Forall_impl; [|exact Hp]. intros o Ho.
    destruct (produced_inv _ _ Ho) as (_ & S & _).
    destruct (Z.eq_dec (scale o) 2) as [|Hn]; [assumption|].
    destruct (produced_large_scale _ _ Ho) as (m & e & Ec & _); [lia|].
    rewrite FloatAxioms.ltb_spec, Ec in Hneg.
    replace (Prim2SF 0) with (S754_zero false) in Hneg by (vm_compute; reflexivity).
    discriminate Hneg. }
  split; [|exact H2].
  pose proof (get_fps_options_scale_sorted _ _ Hrun) as Hs.
  destruct l as [|a [|b l']]; cbn; try lia.
  inversion Hs as [|? ? _ Ha]; subst. inversion Ha as [|? ? Hab _]; subst.
  inversion H2 as [|? ? Sa H2']; subst. inversion H2' as [|? ? Sb _]; subst.
  unfold lt_scale in Hab. lia.
Qed.

Lemma get_fps_options_negative_witness :
  (-3 <? 0)%float = true /\ get_fps_options (-3) = Ok [opt (-6) 2] /\
  (length [opt (-6) 2] <= 1)%nat /\ Forall (fun o => scale o = 2) [opt (-6) 2].
Proof.
  split; [reflexivity|]. split; [vm_compute; reflexivity|].
  apply (get_fps_options_negative (-3) [opt (-6) 2]); vm_compute; reflexivity.
Defined.

(* ------------------------------------------------------------------ *)
(** ** get_video_info: which stream is read, and the malformed inputs *)

Lemma select_streams_keeps_video (post : list stream) (v : stream) :
  v <> ∅ ->
  Forall (fun st => is_Some (st !! "codec_type")) post ->
  forall a0, exists a, select_streams post (Some v) a0 = Ok (Some v, a).
Proof.
  intros Hv Hpost. induction Hpost as [|st post [kind Hk] _ IH]; intros a0; cbn.
  - eauto.
  - rewrite Hk. cbn [falsy]. rewrite (bool_decide_eq_false_2 _ Hv), andb_false_r.
    destruct (is_kind "audio" kind && falsy a0); apply IH.
Qed.

Lemma select_streams_skips (pre : list stream) (rest : list stream) :
  Forall other_kind pre ->
  forall a0, exists a1,
    select_streams (pre ++ rest) None a0 = select_streams rest None a1.
Proof.
  intros Hpre. induction Hpre as [|st pre (kind & Hk & Hnv) _ IH]; intros a0; cbn.
  - eauto.
  - rewrite Hk, Hnv. cbn [andb].
    destruct (is_kind "audio" kind && falsy a0); apply IH.
Qed.

(** X6: the frame rate is read from the first stream of kind video; the
    streams before it of other kinds and every stream after it, video or
    not, do not change it. *)
Theorem get_video_fps_first_video (py_float : string -> result float)
    (pre post : list stream) (v : stream) :
  Forall other_kind pre ->
  v !! "codec_type" = Some (JString "video") ->
  Forall (fun st => is_Some (st !! "codec_type")) post ->
  get_video_fps py_float (pre ++ v :: post)
    = frame_rate py_float (default (JString "30/1") (v !! "r_frame_rate")).
Proof.
  intros Hpre Hv Hpost.
  assert (Hne : v <> ∅).
  { intros ->. unfold stream in Hv. rewrite lookup_empty in Hv. discriminate. }
  unfold get_video_fps.
  destruct (select_streams_skips pre (v :: post) Hpre None) as [a1 ->].
  cbn [select_streams]. rewrite Hv. cbn.
  destruct (select_streams_keeps_video post v Hne Hpost a1) as [a ->].
  now rewrite (bool_decide_eq_false_2 _ Hne).
Qed.

Lemma get_video_fps_first_video_witness :
  get_video_fps decimal_float
    ([audio_stream_with "aac"] ++ video_stream_with "25/1" :: [video_stream_with "50/1"])
  = Ok 25%float.
Proof.
  rewrite (get_video_fps_first_video decimal_float).
  - vm_compute. reflexivity.
  - repeat constructor. exists (JString "audio"). split; vm_compute; reflexivity.
  - vm_compute. reflexivity.
  - repeat constructor. exists (JString "video"). vm_compute. reflexivity.
Defined.

(** X7: one stream without a ['codec_type'] entry, anywhere in the list --
    also after the video stream was found -- makes the call raise
    [KeyError]. *)
Theorem get_video_fps_missing_kind (py_float : string -> result float)
    (streams : list stream) :
  Exists (fun st => st !! "codec_type" = None) streams ->
  get_video_fps py_float streams = Raise (KeyError "codec_type").
Proof.
  intros Hex. unfold get_video_fps.
  assert (G : forall v a, select_streams streams v a = Raise (KeyError "codec_type")).
  { induction Hex as [st rest Hnone | st rest _ IH]; intros v a; cbn.
    - now rewrite Hnone.
    - destruct (st !! "codec_type") as [kind|]; [|reflexivity].
      destruct (is_kind "video" kind && falsy v); [apply IH|].
      destruct (is_kind "audio" kind && falsy a); apply IH. }
  now rewrite G.
Qed.

Lemma get_video_fps_missing_kind_witness :
  get_video_fps decimal_float [video_stream_with "25/1"; ∅] = Raise (KeyError "codec_type").
Proof.
  apply (get_video_fps_missing_kind decimal_float).
  apply Exists_cons_tl, Exists_cons_hd. vm_compute. reflexivity.
Defined.

(** X8: when no stream is of kind video -- in particular for an empty
    list of streams -- the call raises the RuntimeError "No video stream
    found". *)
Theorem get_video_fps_no_video (py_float : string -> result float)
    (streams : list stream) :
  Forall other_kind streams ->
  get_video_fps py_float streams = Raise (RuntimeError NoVideoStream).
Proof.
  intros Hall. unfold get_video_fps.
  destruct (select_streams_skips streams [] Hall None) as [a1 H].
  rewrite app_nil_r in H. rewrite H. reflexivity.
Qed.

Lemma get_video_fps_no_video_witness :
  get_video_fps decimal_float [] = Raise (RuntimeError NoVideoStream) /\
  get_video_fps decimal_float [audio_stream_with "aac"] = Raise (RuntimeError NoVideoStream).
Proof.
  split.
  - apply (get_video_fps_no_video decimal_float). constructor.
  - apply (get_video_fps_no_video decimal_float). repeat constructor.
    exists (JString "audio"). split; vm_compute; reflexivity.
Defined.

Lemma split_length (c : ascii) (s : string) :
  length (split c s) = S (count_char c s).
Proof.
  induction s as [|a s IH]; cbn; [reflexivity|].
  destruct (Ascii.eqb a c); cbn; [now rewrite IH|].
  destruct (split c s) as [|p ps]; cbn in IH |- *; [discriminate | exact IH].
Qed.

Lemma count_char_contains (c : ascii) (s : string) :
  (1 <= count_char c s)%nat -> contains c s = true.
Proof.
  induction s as [|a s IH]; cbn; [lia|].
  destruct (Ascii.eqb a c); cbn; [reflexivity | exact IH].
Qed.

(** X9: a rate string with two or more ['/'] raises [ValueError],
    whatever its parts are. *)
Theorem frame_rate_too_many_parts (py_float : string -> result float) (s : string) :
  (2 <= count_char "/" s)%nat ->
  frame_rate py_float (JString s) = Raise ValueError.
Proof.
  intros H. cbn [frame_rate].
  rewrite count_char_contains by lia.
  pose proof (split_length "/" s) as Hlen.
  destruct (split "/" s) as [|a [|b [|x rest]]]; cbn in Hlen; try lia.
  reflexivity.
Qed.

Lemma frame_rate_too_many_parts_witness :
  (2 <= count_char "/" "30/1/1")%nat /\
  frame_rate decimal_float (JString "30/1/1") = Raise ValueError.
Proof.
  split; [vm_compute; lia|].
  apply (frame_rate_too_many_parts decimal_float). vm_compute. lia.
Defined.

(* ------------------------------------------------------------------ *)
(** ** get_video_files: what is listed, and in which order *)

Import Files.

Lemma string_compare_trans (x : string) :
  forall y z c, String.compare x y = c -> String.compare y z = c ->
                c <> Eq -> String.compare x z = c.
Proof.
  induction x as [|a x IH]; intros [|b y] [|d z] c; cbn; try congruence.
  unfold Ascii.compare.
  destruct (N.compare_spec (N_of_ascii a) (N_of_ascii b)) as [Eab | Lab | Gab];
    destruct (N.compare_spec (N_of_ascii b) (N_of_ascii d)) as [Ebd | Lbd | Gbd];
    destruct (N.compare_spec (N_of_ascii a) (N_of_ascii d)) as [Ead | Lad | Gad];
    try lia; try congruence; intros; eauto.
Qed.

Lemma string_leb_trans (x y z : string) :
  String.leb x y = true -> String.leb y z = true -> String.leb x z = true.
Proof.
  unfold String.leb.
  destruct (String.compare x y) eqn:Hxy; [| |discriminate];
    destruct (String.compare y z) eqn:Hyz; try discriminate; intros _ _.
  - apply String.compare_eq_iff in Hxy, Hyz. subst.
    pose proof (String.compare_antisym z z) as H.
    destruct (String.compare z z); [reflexivity | reflexivity | discriminate H].
  - apply String.compare_eq_iff in Hxy. subst. now rewrite Hyz.
  - apply String.compare_eq_iff in Hyz. subst. now rewrite Hxy.
  - now rewrite (string_compare_trans x y z Lt Hxy Hyz).
Qed.

Lemma string_ltb_leb (x y : string) :
  String.ltb x y = true -> String.leb x y = true.
Proof.
  unfold String.ltb, String.leb.
  destruct (String.compare x y); [discriminate | reflexivity | discriminate].
Qed.

Lemma string_not_ltb_leb (x y : string) :
  String.ltb x y = false -> String.leb y x = true.
Proof.
  unfold String.ltb, String.leb. rewrite (String.compare_antisym y x).
  destruct (String.compare x y); cbn; [reflexivity | discriminate | reflexivity].
Qed.

Section VideoFilesFacts.

Variable lower : string -> string.

Lemma insert_by_name_In (x f : entry) (l : list entry) :
  In f (insert_by_name lower x l) <-> f = x \/ In f l.
Proof.
  induction l as [|y l IH]; cbn; [intuition|].
  destruct (String.ltb _ _); cbn; [intuition|]. rewrite IH. intuition.
Qed.

Lemma insert_by_name_perm (x : entry) (l : list entry) :
  Permutation (insert_by_name lower x l) (x :: l).
Proof.
  induction l as [|y l IH]; cbn; [reflexivity|].
  destruct (String.ltb _ _); [reflexivity|]. rewrite IH. apply perm_swap.
Qed.

Lemma insert_by_name_sorted (x : entry) (l : list entry) :
  StronglySorted (name_le lower) l ->
  StronglySorted (name_le lower) (insert_by_name lower x l).
Proof.
  induction 1 as [|y l Hs IH Hy]; cbn.
  - repeat constructor.
  - destruct (String.ltb (lower (name x)) (lower (name y))) eqn:Hlt.
    + constructor; [now constructor|].
      apply string_ltb_leb in Hlt. constructor; [exact Hlt|].
      eapply List.Forall_impl; [|exact Hy]. intros z Hz.
      exact (string_leb_trans _ _ _ Hlt Hz).
    + constructor; [exact IH|].
      apply List.Forall_forall. intros z Hz.
      apply (proj1 (insert_by_name_In _ _ _)) in Hz as [-> | Hz].
      * now apply string_not_ltb_leb.
      * eapply List.Forall_forall in Hy; eauto.
Qed.

Lemma sorted_by_name_spec (l : list entry) :
  StronglySorted (name_le lower) (sorted_by_name lower l) /\
  Permutation (sorted_by_name lower l) l.
Proof.
  unfold sorted_by_name.
  assert (G : forall acc, StronglySorted (name_le lower) acc ->
            StronglySorted (name_le lower)
              (fold_left (fun a x => insert_by_name lower x a) l acc) /\
            Permutation (fold_left (fun a x => insert_by_name lower x a) l acc)
              (acc ++ l)).
  { induction l as [|x l IH]; intros acc Hacc; cbn.
    - split; [exact Hacc | now rewrite app_nil_r].
    - destruct (IH _ (insert_by_name_sorted x acc Hacc)) as [S P].
      split; [exact S|]. rewrite P, insert_by_name_perm.
      apply Permutation_middle. }
  destruct (G [] (SSorted_nil _)) as [S P]. auto.
Qed.

(** X10: a file is listed exactly when it is an entry of the directory,
    is a regular file, and the lowercased suffix of its name is one of
    the eight video extensions. *)
Theorem get_video_files_lists (entries : list entry) (f : entry) :
  In f (get_video_files lower entries) <->
  In f entries /\ is_file f = true /\
  In (lower (suffix (name f))) video_extensions.
Proof.
  unfold get_video_files.
  destruct (sorted_by_name_spec (List.filter (is_video lower) entries)) as [_ P].
  split.
  - intros H. apply (Permutation_in _ P), filter_In in H as [Hin Hv].
    unfold is_video in Hv. apply andb_true_iff in Hv as [Hx Hf].
    apply List.existsb_exists in Hx as (x & Hx & Heq).
    apply String.eqb_eq in Heq. subst x. auto.
  - intros (Hin & Hf & Hx).
    apply (Permutation_in _ (Permutation_sym P)), filter_In. split; [exact Hin|].
    unfold is_video. rewrite Hf, andb_true_r.
    apply List.existsb_exists. eexists. split; [exact Hx | apply String.eqb_refl].
Qed.

(** X11: the listing is sorted by lowercased name, and it is a
    rearrangement of the video entries: none is lost or repeated. *)
Theorem get_video_files_sorted (entries : list entry) :
  StronglySorted (name_le lower) (get_video_files lower entries) /\
  Permutation (get_video_files lower entries) (List.filter (is_video lower) entries).
Proof. apply sorted_by_name_spec. Qed.

End VideoFilesFacts.

(** Names whose only dot is the first character, or that end in a dot,
    have no suffix. *)
Lemma suffix_samples :
  suffix ".mp4" = "" /\ suffix "clip." = "" /\ suffix "a.b.MKV" = ".MKV" /\
  suffix "clip" = "" /\ suffix "..mp4" = ".mp4".
Proof. repeat split. Qed.

(* ------------------------------------------------------------------ *)
(** ** find_ffmpeg: both tools or none *)

Section FindFfmpegFacts.

Variable which : string -> option string.
Variable system : string.
Variable home : path.

Lemma probe_paths_spec (cands : list path) (w : world) :
  probe_paths cands w = (Ok None, w) \/
  exists p, probe_paths cands w = (Ok (Some (p, removelast p ++ ["ffprobe"])), w) /\
            In p cands /\ p ∈ fs w /\ (removelast p ++ ["ffprobe"]) ∈ fs w.
Proof.
  induction cands as [|p rest IH]; [now left|].
  assert (Hrest : probe_paths (p :: rest) w = probe_paths rest w ->
                  probe_paths (p :: rest) w = (Ok None, w) \/
                  exists q, probe_paths (p :: rest) w
                            = (Ok (Some (q, removelast q ++ ["ffprobe"])), w) /\
                    In q (p :: rest) /\ q ∈ fs w /\ (removelast q ++ ["ffprobe"]) ∈ fs w).
  { intros ->. destruct IH as [IH | (q & IH & Hin & H1 & H2)]; [now left|].
    right. exists q. cbn. auto. }
  destruct (decide (p ∈ fs w)) as [Hp | Hp].
  - destruct (decide (removelast p ++ ["ffprobe"] ∈ fs w)) as [Hq | Hq].
    + right. exists p. split; [|cbn; auto].
      cbn [probe_paths]. unfold bind, exists_.
      now rewrite (bool_decide_eq_true_2 _ Hp), (bool_decide_eq_true_2 _ Hq).
    + apply Hrest. cbn [probe_paths]. unfold bind, exists_.
      now rewrite (bool_decide_eq_true_2 _ Hp), (bool_decide_eq_false_2 _ Hq).
  - apply Hrest. cbn [probe_paths]. unfold bind, exists_.
    now rewrite (bool_decide_eq_false_2 _ Hp).
Qed.

(** X12: [find_ffmpeg] changes nothing and returns either no tool at
    all, or both: the two non-empty answers of [shutil.which], or -- only
    on Darwin -- an existing candidate [ffmpeg] together with the
    existing [ffprobe] next to it. *)
Theorem find_ffmpeg_both_or_neither (w : world) :
  snd (find_ffmpeg which system home w) = w /\
  (fst (find_ffmpeg which system home w) = Ok (None, None) \/
   (exists a b, fst (find_ffmpeg which system home w) = Ok (Some (Str a), Some (Str b)) /\
      which "ffmpeg" = Some a /\ which "ffprobe" = Some b /\ a <> "" /\ b <> "") \/
   (exists p, fst (find_ffmpeg which system home w)
                = Ok (Some (OfPath p), Some (OfPath (removelast p ++ ["ffprobe"]))) /\
      system = "Darwin" /\ In p (possible_paths home) /\
      p ∈ fs w /\ (removelast p ++ ["ffprobe"]) ∈ fs w)).
Proof.
  unfold find_ffmpeg, found.
  destruct (which "ffmpeg") as [a|], (which "ffprobe") as [b|]; cbn [andb negb];
    try destruct (String.eqb_spec a ""); try destruct (String.eqb_spec b "");
    cbn [andb negb option_map];
    try (split; [reflexivity|]; right; left; exists a, b; now auto).
  all: destruct (String.eqb_spec system "Darwin") as [Hsys|]; [|now auto].
  all: destruct (probe_paths_spec (possible_paths home) w) as [H | (p & H & Hin & H1 & H2)];
    unfold bind; rewrite H; cbn; [now auto|].
  all: split; [reflexivity|]; right; right; exists p; auto.
Qed.

End FindFfmpegFacts.

(* ------------------------------------------------------------------ *)
(** ** The constructors *)

Section Constructors.

Variable globals : list string.
Variable which : string -> option string.
Variable environ : string -> option path.
Variable home : path.

(** X13: [VideoProcessor(...)] changes nothing; when it returns, both
    tool paths are non-empty, a non-empty argument is taken as given and
    only a missing or empty one is looked up on PATH; otherwise it raises
    the RuntimeError "FFmpeg not found". *)
Theorem VideoProcessor_init_invariant (ffmpeg_path ffprobe_path : option string)
    (w : world) :
  snd (VideoProcessor_init which ffmpeg_path ffprobe_path w) = w /\
  match fst (VideoProcessor_init which ffmpeg_path ffprobe_path w) with
  | Ok vp =>
      ffmpeg vp <> "" /\ ffprobe vp <> "" /\
      (forall x, ffmpeg_path = Some x -> x <> "" -> ffmpeg vp = x) /\
      (forall x, ffprobe_path = Some x -> x <> "" -> ffprobe vp = x) /\
      (ffmpeg_path = None \/ ffmpeg_path = Some "" -> which "ffmpeg" = Some (ffmpeg vp)) /\
      (ffprobe_path = None \/ ffprobe_path = Some "" -> which "ffprobe" = Some (ffprobe vp))
  | Raise e => e = RuntimeError FFmpegNotFound
  end.
Proof.
  unfold VideoProcessor_init, or_else.
  destruct ffmpeg_path as [a|], ffprobe_path as [b|];
    try destruct (String.eqb_spec a ""); try destruct (String.eqb_spec b "");
    try destruct (which "ffmpeg") as [f|]; try destruct (which "ffprobe") as [p|];
    try (split; reflexivity);
    repeat match goal with
           | |- context [String.eqb ?x ""] => destruct (String.eqb_spec x "")
           end; cbn; (split; [reflexivity|]); try reflexivity;
    repeat split; try assumption; try congruence;
    try (intros ? [= <-]; congruence); try (intros [? | ?]; congruence).
Qed.

(** X14: [RIFEInterpolator(...)] tests the tool's root first, so with
    both directories missing the error names the root.  When it returns,
    both its directories exist, [sys] is bound, and its one change is that
    the tool's root is the new first entry of [sys.path]; when it raises,
    it changed nothing. *)
Theorem RIFEInterpolator_init_invariant (rd md : option path) (w : world) :
  match RIFEInterpolator_init globals environ home rd md w with
  | (Ok self, w') =>
      rife_dir self = configured_dir environ home rd "UFPS_RIFE_DIR" "RIFE" /\
      models_dir self = configured_dir environ home md "UFPS_MODELS_DIR" "models" /\
      rife_dir self ∈ fs w /\ models_dir self ∈ fs w /\ In "sys" globals /\
      w' = mkWorld (fs w) (cwd w) (log w) (OfPath (rife_dir self) :: sys_path w)
  | (Raise e, w') =>
      w' = w /\
      ((e = RuntimeError (RifeNotFound (configured_dir environ home rd "UFPS_RIFE_DIR" "RIFE")) /\
        configured_dir environ home rd "UFPS_RIFE_DIR" "RIFE" ∉ fs w) \/
       (e = RuntimeError (ModelsNotFound (configured_dir environ home md "UFPS_MODELS_DIR" "models")) /\
        configured_dir environ home rd "UFPS_RIFE_DIR" "RIFE" ∈ fs w /\
        configured_dir environ home md "UFPS_MODELS_DIR" "models" ∉ fs w) \/
       (e = NameError "sys" /\ ~ In "sys" globals /\
        configured_dir environ home rd "UFPS_RIFE_DIR" "RIFE" ∈ fs w /\
        configured_dir environ home md "UFPS_MODELS_DIR" "models" ∈ fs w))
  end.
Proof.
  unfold RIFEInterpolator_init, bind, exists_, global, sys_path_insert.
  set (r := configured_dir environ home rd "UFPS_RIFE_DIR" "RIFE").
  set (m := configured_dir environ home md "UFPS_MODELS_DIR" "models").
  destruct (decide (r ∈ fs w)) as [Hr | Hr].
  - rewrite (bool_decide_eq_true_2 _ Hr). cbn.
    destruct (decide (m ∈ fs w)) as [Hm | Hm].
    + rewrite (bool_decide_eq_true_2 _ Hm). cbn.
      destruct (decide ("sys" ∈ globals)) as [Hs | Hs].
      * rewrite (bool_decide_eq_true_2 _ Hs). cbn.
        repeat split; try assumption. now apply list_elem_of_In.
      * rewrite (bool_decide_eq_false_2 _ Hs). cbn. split; [reflexivity|].
        right. right. split; [reflexivity|]. split; [|split; assumption].
        intros Hin. apply Hs. now apply list_elem_of_In.
    + rewrite (bool_decide_eq_false_2 _ Hm). cbn. split; [reflexivity|].
      right. left. split; [reflexivity|]. split; assumption.
  - rewrite (bool_decide_eq_false_2 _ Hr). cbn. split; [reflexivity|].
    left. split; [reflexivity | assumption].
Qed.

End Constructors.

(* ------------------------------------------------------------------ *)
(** ** interpolate: its effects when it fails *)

Section InterpolateEffects.

Variable sys_executable : string.
Variable run_tool : list arg -> world -> Z * string * gset path.
Variable int_log2 : Z -> Z.

Lemma interpolate_log2_domain (globals : list string) (self : RIFEInterpolator)
    (input_dir output_dir : path) (scale : Z) (w : world) :
  scale <= 0 ->
  interpolate globals sys_executable run_tool int_log2 self input_dir output_dir scale w
    = (Raise ValueError, with_dir output_dir w).
Proof.
  intros Hs. unfold interpolate.
  rewrite (bind_ok _ _ w (with_dir output_dir w) tt) by reflexivity.
  apply bind_raise. unfold exponent_of.
  now rewrite (proj2 (Z.leb_le _ _) Hs).
Qed.

(** X15: a multiplier that is zero or negative makes [interpolate] raise
    [ValueError] -- whatever the global scope -- after it created the
    output directory and before it changed directory or ran anything. *)
Theorem interpolate_bad_scale (globals : list string) (self : RIFEInterpolator)
    (input_dir output_dir : path) (scale : Z) (w : world) :
  scale <= 0 ->
  interpolate globals sys_executable run_tool int_log2 self input_dir output_dir scale w
    = (Raise ValueError, with_dir output_dir w).
Proof. apply interpolate_log2_domain. Qed.


End InterpolateEffects.

Lemma interpolate_bad_scale_witness :
  fst (interpolate ("sys" :: core_globals) "python3" good_tool sample_log2 demo_rife ["in"] ["out"] 0
         demo_world) = Raise ValueError.
Proof.
  rewrite (interpolate_bad_scale "python3" good_tool sample_log2 ("sys" :: core_globals)
             demo_rife ["in"] ["out"] 0 demo_world); [reflexivity | lia].
Defined.

(* ------------------------------------------------------------------ *)
(** ** The stages one by one *)

Section Stages.

Variable run_tool : list arg -> world -> Z * string * gset path.

Lemma subprocess_run_spec (cmd : list arg) (w : world) :
  subprocess_run run_tool cmd w =
    (Ok (fst (fst (run_tool cmd w)), snd (fst (run_tool cmd w))),
     mkWorld (snd (run_tool cmd w)) (cwd w) (log w ++ [EvRun (cwd w) cmd]) (sys_path w)).
Proof. unfold subprocess_run. now destruct (run_tool cmd w) as [[rc err] fs']. Qed.

Lemma extract_frames_run (self : VideoProcessor) (video_path output_dir : path)
    (quality : Z) (w : world) :
  let cmd := extract_frames_cmd self video_path output_dir quality in
  let out := run_tool cmd (with_dir output_dir w) in
  let w' := mkWorld (snd out) (cwd w) (log w ++ [EvRun (cwd w) cmd]) (sys_path w) in
  extract_frames run_tool self video_path output_dir quality w =
    (if fst (fst out) =? 0
     then Ok (Z.of_nat (length (filter (fun q => is_png_child output_dir q = true)
                                  (elements (snd out)))))
     else Raise (RuntimeError (ExtractFailed (snd (fst out)))), w').
Proof.
  cbv zeta. unfold extract_frames.
  rewrite (bind_ok _ _ w (with_dir output_dir w) tt) by reflexivity.
  erewrite bind_ok by apply subprocess_run_spec. cbn [fst snd].
  destruct (fst (fst (run_tool _ (with_dir output_dir w))) =? 0); reflexivity.
Qed.

(** X17: [extract_frames] starts the decoder once, from the caller's
    working directory and with the output directory already created; it
    raises exactly when the exit status is not 0, with the tool's error
    text in the message, and otherwise returns the number of [*.png]
    entries of the output directory. *)
Theorem extract_frames_spec (self : VideoProcessor) (video_path output_dir : path)
    (quality : Z) (w : world) :
  let cmd := extract_frames_cmd self video_path output_dir quality in
  let out := run_tool cmd (with_dir output_dir w) in
  let w' := mkWorld (snd out) (cwd w) (log w ++ [EvRun (cwd w) cmd]) (sys_path w) in
  (output_dir ∈ fs (with_dir output_dir w)) /\
  extract_frames run_tool self video_path output_dir quality w =
    (if fst (fst out) =? 0
     then Ok (Z.of_nat (length (filter (fun q => is_png_child output_dir q = true)
                                  (elements (snd out)))))
     else Raise (RuntimeError (ExtractFailed (snd (fst out)))), w').
Proof.
  cbv zeta. split; [|apply extract_frames_run].
  unfold with_dir, ancestors. cbn [fs].
  apply elem_of_union_r, elem_of_list_to_set, list_elem_of_In, in_map_iff.
  exists (length output_dir). split; [apply firstn_all|].
  apply in_seq. lia.
Qed.

(** X18: an audio path that does not exist is treated like no audio:
    [encode_video] runs the same command line as without it. *)
Theorem encode_video_missing_audio (self : VideoProcessor) (frames_dir output_path : path)
    (fps : pynum) (audio_path : path) (crf : Z) (w : world) :
  audio_path ∉ fs w ->
  encode_video run_tool self frames_dir output_path fps (Some audio_path) crf w
    = encode_video run_tool self frames_dir output_path fps None crf w.
Proof.
  intros Hmiss. unfold encode_video.
  rewrite (bind_ok _ _ w w false);
    [|unfold exists_; now rewrite (bool_decide_eq_false_2 _ Hmiss)].
  now rewrite (bind_ok _ _ w w false) by reflexivity.
Qed.

Lemma extract_frames_log (self : VideoProcessor) (i d : path) (q : Z) (w : world) :
  cwd (snd (extract_frames run_tool self i d q w)) = cwd w /\
  log (snd (extract_frames run_tool self i d q w))
    = log w ++ [EvRun (cwd w) (extract_frames_cmd self i d q)].
Proof.
  pose proof (extract_frames_run self i d q w) as H. cbv zeta in H.
  rewrite H. cbn. auto.
Qed.

Lemma extract_audio_log (self : VideoProcessor) (i a : path) (w : world) :
  cwd (snd (extract_audio run_tool self i a w)) = cwd w /\
  log (snd (extract_audio run_tool self i a w))
    = log w ++ [EvRun (cwd w) (extract_audio_cmd self i a)].
Proof.
  unfold extract_audio.
  erewrite bind_ok by apply subprocess_run_spec. cbn. auto.
Qed.

Lemma encode_video_log (self : VideoProcessor) (d o : path) (fps : pynum)
    (audio : option path) (crf : Z) (w : world) :
  exists enc,
    (enc = encode_cmd_silent self d o fps crf \/
     exists a, audio = Some a /\ enc = encode_cmd_audio self d o fps a crf) /\
    cwd (snd (encode_video run_tool self d o fps audio crf w)) = cwd w /\
    log (snd (encode_video run_tool self d o fps audio crf w))
      = log w ++ [EvRun (cwd w) enc].
Proof.
  assert (G : forall enc,
            cwd (snd ((res <- subprocess_run run_tool enc ;;
                       if negb (fst res =? 0)
                       then raise (RuntimeError (EncodeFailed (snd res)))
                       else ret o) w)) = cwd w /\
            log (snd ((res <- subprocess_run run_tool enc ;;
                       if negb (fst res =? 0)
                       then raise (RuntimeError (EncodeFailed (snd res)))
                       else ret o) w)) = log w ++ [EvRun (cwd w) enc]).
  { intros enc. erewrite bind_ok by apply subprocess_run_spec. cbn [fst snd].
    match goal with |- context [negb ?b] => destruct b end; cbn; auto. }
  unfold encode_video. destruct audio as [a|].
  - destruct (decide (a ∈ fs w)) as [Ha | Ha].
    + exists (encode_cmd_audio self d o fps a crf). split; [right; eauto|].
      rewrite (bind_ok _ _ w w true);
        [apply G | unfold exists_; now rewrite (bool_decide_eq_true_2 _ Ha)].
    + exists (encode_cmd_silent self d o fps crf). split; [now left|].
      rewrite (bind_ok _ _ w w false);
        [apply G | unfold exists_; now rewrite (bool_decide_eq_false_2 _ Ha)].
  - exists (encode_cmd_silent self d o fps crf). split; [now left|].
    rewrite (bind_ok _ _ w w false) by reflexivity. apply G.
Qed.

End Stages.

Lemma encode_video_missing_audio_witness :
  (["tmp"; "audio.aac"] ∉ fs demo_world) /\
  encode_video failing_tool demo_processor ["tmp"; "interpolated"] ["out.mp4"]
    (PyInt 60) (Some ["tmp"; "audio.aac"]) 18 demo_world
  = encode_video failing_tool demo_processor ["tmp"; "interpolated"] ["out.mp4"]
      (PyInt 60) None 18 demo_world.
Proof.
  assert (H : ["tmp"; "audio.aac"] ∉ fs demo_world).
  { apply (bool_decide_eq_false_1 (["tmp"; "audio.aac"] ∈ fs demo_world)).
    vm_compute. reflexivity. }
  split; [exact H|].
  apply (encode_video_missing_audio failing_tool). exact H.
Defined.

(* ------------------------------------------------------------------ *)
(** ** The pipeline as a whole *)

Section WholePipeline.

Variable globals : list string.
Variable which : string -> option string.
Variable environ : string -> option path.
Variable home : path.
Variable sys_executable : string.
Variable run_tool : list arg -> world -> Z * string * gset path.
Variable mkdtemp_name : world -> path.
Variable int_log2 : Z -> Z.

(** What a successful initialization fixes: the tools are the answers of
    [shutil.which], the directories are the configured ones, [sys] is
    bound, and the one change is the new first entry of [sys.path]. *)
Lemma initialize_processors_ok (w w1 : world) (vp : VideoProcessor)
    (rp : RIFEInterpolator) :
  initialize_processors globals which environ home w = (Ok (vp, rp), w1) ->
  which "ffmpeg" = Some (ffmpeg vp) /\ which "ffprobe" = Some (ffprobe vp) /\
  rp = mkRIFEInterpolator (configured_dir environ home None "UFPS_RIFE_DIR" "RIFE")
         (configured_dir environ home None "UFPS_MODELS_DIR" "models") /\
  In "sys" globals /\
  w1 = mkWorld (fs w) (cwd w) (log w) (OfPath (rife_dir rp) :: sys_path w).
Proof.
  unfold initialize_processors, VideoProcessor_init, or_else.
  destruct (which "ffmpeg") as [f|], (which "ffprobe") as [p|];
    try (cbn; discriminate).
  destruct (String.eqb f "" || String.eqb p ""); [cbn; discriminate|].
  rewrite (bind_ok _ _ w w (mkVideoProcessor f p)) by reflexivity.
  unfold RIFEInterpolator_init, bind, exists_, global, sys_path_insert.
  set (r := configured_dir environ home None "UFPS_RIFE_DIR" "RIFE").
  set (m := configured_dir environ home None "UFPS_MODELS_DIR" "models").
  match goal with |- context [negb ?b] => destruct b end; cbn; [|discriminate].
  match goal with |- context [negb ?b] => destruct b end; cbn; [|discriminate].
  destruct (decide ("sys" ∈ globals)) as [Hs | Hs].
  - rewrite (bool_decide_eq_true_2 _ Hs). cbn. intros [= <- <- <-]. cbn.
    repeat split. now apply list_elem_of_In.
  - rewrite (bool_decide_eq_false_2 _ Hs). cbn. discriminate.
Qed.

End WholePipeline.

Section ProcessVideoFacts.

Variable globals : list string.
Variable which : string -> option string.
Variable environ : string -> option path.
Variable home : path.
Variable sys_executable : string.
Variable run_tool : list arg -> world -> Z * string * gset path.
Variable mkdtemp_name : world -> path.
Variable int_log2 : Z -> Z.

Lemma process_video_unfold (i o : path) (scale : Z) (fps : pynum) (crf : Z)
    (cb : option (label -> Z -> M unit)) (w : world) :
  let d := mkdtemp_name w in
  let w0 := mkWorld (fs w ∪ {[ d ]}) (cwd w) (log w) (sys_path w) in
  exists w',
    process_video globals which environ home sys_executable run_tool mkdtemp_name int_log2
      i o scale fps crf cb w
    = (fst (pipeline globals which environ home sys_executable run_tool int_log2
              d i o scale fps crf cb w0), w') /\
    cleanup d (snd (pipeline globals which environ home sys_executable run_tool int_log2
                      d i o scale fps crf cb w0)) = (Ok tt, w').
Proof.
  intros d w0.
  destruct (cleanup_removes d (snd (pipeline globals which environ home
              sys_executable run_tool int_log2 d i o scale fps crf cb w0)))
    as (w' & Hc & _).
  exists w'. split; [|exact Hc].
  unfold process_video, mkdtemp, try_finally, bind at 1.
  fold d. fold w0.
  destruct (pipeline _ _ _ _ _ _ _ d i o scale fps crf cb w0) as [r w1].
  cbn [fst snd] in Hc |- *. now rewrite Hc.
Qed.

(** X19: when [ffmpeg] or [ffprobe] is not on PATH, [process_video]
    raises the RuntimeError "FFmpeg not found" -- whatever
    [find_ffmpeg] located elsewhere, and whatever the global scope --
    having run nothing, and the temporary directory is removed. *)
Theorem process_video_tools_not_on_path (input_path output_path : path) (scale : Z)
    (target_fps : pynum) (crf : Z) (cb : option (label -> Z -> M unit)) (w : world) :
  Files.found (which "ffmpeg") && Files.found (which "ffprobe") = false ->
  exists w',
    process_video globals which environ home sys_executable run_tool mkdtemp_name int_log2
      input_path output_path scale target_fps crf cb w
    = (Raise (RuntimeError FFmpegNotFound), w') /\
    log w' = log w /\ cwd w' = cwd w /\ (mkdtemp_name w ∉ fs w').
Proof.
  intros Hpath.
  destruct (process_video_unfold input_path output_path scale target_fps crf cb w)
    as (w' & Hrun & Hc).
  set (d := mkdtemp_name w) in *.
  set (w0 := mkWorld (fs w ∪ {[ d ]}) (cwd w) (log w) (sys_path w)) in *.
  assert (Hinit : VideoProcessor_init which None None w0
                  = (Raise (RuntimeError FFmpegNotFound), w0)).
  { unfold VideoProcessor_init, or_else. unfold Files.found in Hpath.
    destruct (which "ffmpeg") as [f|], (which "ffprobe") as [p|]; try reflexivity.
    destruct (String.eqb f ""), (String.eqb p ""); cbn in Hpath |- *;
      try reflexivity; discriminate Hpath. }
  assert (Hp : pipeline globals which environ home sys_executable run_tool int_log2
                 d input_path output_path scale target_fps crf cb w0
               = (Raise (RuntimeError FFmpegNotFound), w0)).
  { unfold pipeline, initialize_processors.
    apply bind_raise, bind_raise. exact Hinit. }
  rewrite Hp in Hrun, Hc. cbn [fst snd] in Hrun, Hc.
  destruct (cleanup_removes d w0) as (w'' & Hc' & Hgone & _ & Hcwd & Hlog).
  rewrite Hc in Hc'. injection Hc' as <-.
  exists w'. auto.
Qed.

(** X20: [process_video] never returns [False]: it returns [True] or
    raises. *)
Theorem process_video_never_false (input_path output_path : path) (scale : Z)
    (target_fps : pynum) (crf : Z) (cb : option (label -> Z -> M unit)) (w : world) :
  fst (process_video globals which environ home sys_executable run_tool mkdtemp_name int_log2
         input_path output_path scale target_fps crf cb w) <> Ok false.
Proof.
  destruct (process_video_unfold input_path output_path scale target_fps crf cb w)
    as (w' & -> & _). cbn [fst].
  pose proof (pipeline_exits globals which environ home sys_executable run_tool
                int_log2 (mkdtemp_name w) input_path output_path scale target_fps crf cb
                (mkWorld (fs w ∪ {[ mkdtemp_name w ]}) (cwd w) (log w) (sys_path w))) as Hexit.
  destruct (pipeline _ _ _ _ _ _ _ _ _ _ _ _ _ _ _) as [r w1].
  cbn [fst snd] in Hexit |- *.
  inversion Hexit as [ | | | | | procs wa n1 wb n2 wc audio wd out w5 r' w6
                               _ _ _ _ _ Hlast]; subst; try discriminate.
  unfold bind in Hlast.
  destruct (progress cb Complete 100 w5) as [[[] | e] w7];
    injection Hlast as <- _; discriminate.
Qed.

End ProcessVideoFacts.

Section ProcessVideoRuns.

Variable which : string -> option string.
Variable environ : string -> option path.
Variable home : path.
Variable sys_executable : string.
Variable run_tool : list arg -> world -> Z * string * gset path.
Variable mkdtemp_name : world -> path.
Variable int_log2 : Z -> Z.

(** X21: as [core.py] stands, and when the temporary directory is new
    (no existing path lies at or below it), a call of [process_video]
    leaves the world exactly as it found it: same file system, same
    working directory, nothing run. *)
Theorem process_video_core_no_effect (input_path output_path : path) (scale : Z)
    (target_fps : pynum) (crf : Z) (cb : option (label -> Z -> M unit)) (w : world) :
  (forall q, q ∈ fs w -> ~ mkdtemp_name w `prefix_of` q) ->
  snd (process_video core_globals which environ home sys_executable run_tool
         mkdtemp_name int_log2 input_path output_path scale target_fps crf cb w) = w.
Proof.
  intros Hfresh.
  destruct (process_video_unfold core_globals which environ home sys_executable
              run_tool mkdtemp_name int_log2 input_path output_path scale target_fps crf cb w)
    as (w' & -> & Hc). cbn [snd].
  set (d := mkdtemp_name w) in *.
  set (w0 := mkWorld (fs w ∪ {[ d ]}) (cwd w) (log w) (sys_path w)) in *.
  destruct (initialize_processors_raises which environ home w0) as (e & He & _).
  assert (Hp : pipeline core_globals which environ home sys_executable run_tool int_log2
                 d input_path output_path scale target_fps crf cb w0 = (Raise e, w0)).
  { unfold pipeline. apply bind_raise. exact He. }
  rewrite Hp in Hc. cbn [snd] in Hc.
  unfold cleanup, bind, exists_, rmtree in Hc.
  rewrite bool_decide_eq_true_2 in Hc by (cbn; set_solver).
  cbn in Hc. injection Hc as <-.
  destruct w as [fsw cw lw]. cbn in *. f_equal.
  apply set_eq. intros q. rewrite elem_of_filter, elem_of_union, elem_of_singleton.
  split.
  - intros [Hn [Hq | ->]]; [exact Hq|]. now destruct Hn.
  - intros Hq. split; [now apply Hfresh | now left].
Qed.

(** X22: [process_video], called without a progress callback, returns
    only where [sys] is bound and both tools are on PATH.  It then returns
    [True] in the caller's working directory, with the temporary directory
    gone, and the commands it ran are, in this order: the frame extraction
    into [frames], one or more inference commands -- each on a candidate
    script of the configured tool's root, from [frames] to [interpolated]
    with the exponent of the multiplier, started in that root --, the audio
    extraction, and one encoding command (with or without the audio file);
    the three ffmpeg commands were started in the caller's working
    directory. *)
Theorem process_video_success_order (globals : list string)
    (input_path output_path : path) (scale : Z) (target_fps : pynum) (crf : Z)
    (w w' : world) (b : bool) :
  process_video globals which environ home sys_executable run_tool mkdtemp_name int_log2
    input_path output_path scale target_fps crf None w = (Ok b, w') ->
  let d := mkdtemp_name w in
  let rp := mkRIFEInterpolator (configured_dir environ home None "UFPS_RIFE_DIR" "RIFE")
              (configured_dir environ home None "UFPS_MODELS_DIR" "models") in
  b = true /\ In "sys" globals /\ cwd w' = cwd w /\ (d ∉ fs w') /\
  exists f p evs enc,
    which "ffmpeg" = Some f /\ which "ffprobe" = Some p /\
    log w' = log w
      ++ [EvRun (cwd w) (extract_frames_cmd (mkVideoProcessor f p) input_path
                           (d ++ ["frames"]) 1)]
      ++ evs
      ++ [EvRun (cwd w) (extract_audio_cmd (mkVideoProcessor f p) input_path
                           (d ++ ["audio.aac"]));
          EvRun (cwd w) enc] /\
    evs <> [] /\
    Forall (inference_event sys_executable rp scripts (d ++ ["frames"])
              (d ++ ["interpolated"]) (int_log2 scale) (rife_dir rp)) evs /\
    (enc = encode_cmd_silent (mkVideoProcessor f p) (d ++ ["interpolated"])
             output_path target_fps crf \/
     enc = encode_cmd_audio (mkVideoProcessor f p) (d ++ ["interpolated"])
             output_path target_fps (d ++ ["audio.aac"]) crf).
Proof.
  intros Hrun d rp0.
  destruct (process_video_unfold globals which environ home sys_executable
              run_tool mkdtemp_name int_log2 input_path output_path scale target_fps
              crf None w)
    as (w'' & Hrun' & Hc).
  rewrite Hrun in Hrun'. injection Hrun' as Hb <-.
  fold d in Hb, Hc.
  set (w0 := mkWorld (fs w ∪ {[ d ]}) (cwd w) (log w) (sys_path w)) in *.
  pose proof (pipeline_exits globals which environ home sys_executable run_tool
                int_log2 d input_path output_path scale target_fps crf None w0)
    as Hexit.
  destruct (pipeline _ _ _ _ _ _ _ d _ _ _ _ _ None w0) as [r w6].
  cbn [fst snd] in Hexit, Hb, Hc. subst r.
  inversion Hexit as [ | | | | | procs w1 n1 w2 n2 w3 audio w4 out w5 r' w6'
                               H0 H1 H2 H3 H4 H5]; subst.
  injection H5 as <- <-.
  destruct (cleanup_removes d w5) as (wc & Hc' & Hgone & _ & Hcwd & Hlog).
  rewrite Hc in Hc'. injection Hc' as <-.
  destruct procs as [vp rp]. cbn [fst snd] in *.
  destruct (initialize_processors_ok globals which environ home w0 w1 vp rp H0)
    as (Hf & Hp & Hrp & Hsys & Hw1).
  fold rp0 in Hrp. subst rp.
  destruct vp as [f p]. cbn [ffmpeg ffprobe] in Hf, Hp.
  set (vp := mkVideoProcessor f p) in *.
  assert (Cw1 : cwd w1 = cwd w) by (rewrite Hw1; reflexivity).
  assert (Lw1 : log w1 = log w) by (rewrite Hw1; reflexivity).
  clear Hw1.
  (* step 1 *)
  change (extract_frames run_tool vp input_path (d ++ ["frames"]) 1 w1 = (Ok n1, w2)) in H1.
  destruct (extract_frames_log run_tool vp input_path (d ++ ["frames"]) 1 w1) as [C1 L1].
  rewrite H1 in C1, L1. cbn [snd] in C1, L1.
  (* step 2 *)
  change (interpolate globals sys_executable run_tool int_log2 rp0 (d ++ ["frames"])
            (d ++ ["interpolated"]) scale w2 = (Ok n2, w3)) in H2.
  destruct (interpolate_trace globals sys_executable run_tool int_log2 rp0
              (d ++ ["frames"]) (d ++ ["interpolated"]) scale w2)
    as [C2 (evs & L2 & F2 & N2 & _)].
  rewrite H2 in C2, L2, N2. cbn [fst snd] in C2, L2, N2.
  (* step 3 *)
  change (extract_audio run_tool vp input_path (d ++ ["audio.aac"]) w3 = (Ok audio, w4)) in H3.
  destruct (extract_audio_log run_tool vp input_path (d ++ ["audio.aac"]) w3) as [C3 L3].
  rewrite H3 in C3, L3. cbn [snd] in C3, L3.
  assert (Haudio : audio = None \/ audio = Some (d ++ ["audio.aac"])).
  { destruct (extract_audio_returns run_tool vp input_path (d ++ ["audio.aac"]) w3)
      as [wx Hx]. rewrite H3 in Hx. injection Hx as -> _.
    destruct (bool_decide _); auto. }
  (* step 4 *)
  change (encode_video run_tool vp (d ++ ["interpolated"]) output_path target_fps
            audio crf w4 = (Ok out, w5)) in H4.
  destruct (encode_video_log run_tool vp (d ++ ["interpolated"]) output_path
              target_fps audio crf w4) as (enc & Henc & C4 & L4).
  rewrite H4 in C4, L4. cbn [snd] in C4, L4.
  split; [reflexivity|]. split; [exact Hsys|].
  split; [congruence|]. split; [exact Hgone|].
  exists f, p, evs, enc. split; [exact Hf|]. split; [exact Hp|].
  split; [|split; [eauto | split; [exact F2|]]].
  - rewrite Hlog, L4, L3, L2, L1, C3, C2, C1, Cw1, Lw1.
    rewrite <- !app_assoc. reflexivity.
  - destruct Henc as [-> | (a & Ha & ->)]; [now left|].
    destruct Haudio as [-> | ->]; [discriminate|]. injection Ha as <-. now right.
Qed.

End ProcessVideoRuns.

Lemma process_video_tools_not_on_path_witness :
  exists w',
    process_video core_globals no_which no_environ ["home"; "user"] "python3"
      failing_tool fixed_temp sample_log2 ["in.mp4"] ["out.mp4"] 2 (PyInt 60) 18 None
      demo_world
    = (Raise (RuntimeError FFmpegNotFound), w') /\
    log w' = log demo_world /\ cwd w' = cwd demo_world /\
    (fixed_temp demo_world ∉ fs w').
Proof.
  apply (process_video_tools_not_on_path core_globals no_which no_environ
           ["home"; "user"] "python3" failing_tool fixed_temp sample_log2).
  reflexivity.
Defined.

Lemma process_video_core_no_effect_witness :
  (forall q, q ∈ fs demo_world -> ~ fixed_temp demo_world `prefix_of` q) /\
  snd (process_video core_globals usr_bin_which no_environ ["home"; "user"] "python3"
         good_tool fixed_temp sample_log2 ["in.mp4"] ["out.mp4"] 2 (PyInt 60) 18 None
         demo_world)
  = demo_world.
Proof.
  assert (H : forall q, q ∈ fs demo_world -> ~ fixed_temp demo_world `prefix_of` q).
  { intros q Hq. unfold demo_world in Hq. cbn in Hq.
    apply elem_of_singleton in Hq. subst q.
    intros [k Hk]. discriminate Hk. }
  split; [exact H|].
  apply (process_video_core_no_effect usr_bin_which no_environ ["home"; "user"]
           "python3" good_tool fixed_temp sample_log2). exact H.
Defined.

Lemma process_video_success_order_witness :
  true = true /\ In "sys" ("sys" :: core_globals) /\
  cwd (snd installed_run) = cwd installed_world /\
  (fixed_temp installed_world ∉ fs (snd installed_run)) /\
  exists f p evs enc,
    usr_bin_which "ffmpeg" = Some f /\ usr_bin_which "ffprobe" = Some p /\
    log (snd installed_run) = log installed_world
      ++ [EvRun (cwd installed_world)
            (extract_frames_cmd (mkVideoProcessor f p) ["in.mp4"]
               (fixed_temp installed_world ++ ["frames"]) 1)]
      ++ evs
      ++ [EvRun (cwd installed_world)
            (extract_audio_cmd (mkVideoProcessor f p) ["in.mp4"]
               (fixed_temp installed_world ++ ["audio.aac"]));
          EvRun (cwd installed_world) enc] /\
    evs <> [] /\
    Forall (inference_event "python3" installed_rife scripts
              (fixed_temp installed_world ++ ["frames"])
              (fixed_temp installed_world ++ ["interpolated"])
              (sample_log2 2) (rife_dir installed_rife)) evs /\
    (enc = encode_cmd_silent (mkVideoProcessor f p)
             (fixed_temp installed_world ++ ["interpolated"]) ["out.mp4"] (PyInt 60) 18 \/
     enc = encode_cmd_audio (mkVideoProcessor f p)
             (fixed_temp installed_world ++ ["interpolated"]) ["out.mp4"] (PyInt 60)
             (fixed_temp installed_world ++ ["audio.aac"]) 18).
Proof.
  apply (process_video_success_order usr_bin_which no_environ ["home"; "user"]
           "python3" frame_writer fixed_temp sample_log2 ("sys" :: core_globals)
           ["in.mp4"] ["out.mp4"] 2 (PyInt 60) 18 installed_world
           (snd installed_run) true).
  vm_compute. reflexivity.
Defined.
